(** * otel-compat: the OpenTelemetry 2.0 resource adapter

    A shallow embedding of [js/plugins/google-cloud/src/otel-compat.ts]:
    the [ResourceWrapper] class, the four factory functions and the part of
    the JavaScript semantics they rely on (truthiness, [typeof], property
    reads, object spread, allocation), followed by the properties of the
    adapter.

    Objects live in a heap and are named by references, so that "the same
    object", "a new instance" and "not mutated" have a meaning.  The three
    functions imported from [@opentelemetry/resources] are not part of the
    repository: they are variables of the development, together with the
    behaviour the adapter relies on. *)

From stdpp Require Import base option list gmap strings pretty.
From Stdlib Require Import ZArith Lia.

Open Scope string_scope.
Open Scope list_scope.

(** ** JavaScript values and the heap *)

Definition loc := nat.

(** Numbers are kept as integers plus [NaN]: the adapter only tests numbers
    for truthiness, where every non-zero finite number behaves alike. *)
Inductive value : Type :=
| VUndefined
| VNull
| VBool (b : bool)
| VNumber (n : Z)
| VNaN
| VBigInt (n : Z)
| VString (s : string)
| VSymbol (id : nat)
| VRef (l : loc).

(** [Attributes] of [@opentelemetry/api]: a mapping from string keys. *)
Abbreviation Attributes := (gmap string value).

(** What a reference can point to.
    - [JSObject callable props]: an ordinary object (object literal, array,
      attribute mapping, detector result) with its own enumerable data
      properties; [callable] is set for functions.
    - [NativeResource attributes]: a resource of the telemetry library.  The
      handle is opaque to the adapter, which reads nothing but its
      [attributes] property.
    - [ResourceWrapper _resource]: an instance of the class of that name,
      with its one field.  The class is private to the module and each of
      its construction sites passes the result of a library factory. *)
Inductive object : Type :=
| JSObject (callable : bool) (props : gmap string value)
| NativeResource (attributes : value)
| ResourceWrapper (_resource : loc).

Abbreviation heap := (list object).

(** What a call can throw: a [TypeError] raised by the code of the adapter
    itself (a property read on [undefined] or [null], a call of something
    that is not a function), or whatever a library factory threw. *)
Inductive thrown (E : Type) : Type :=
| TypeError
| External (e : E).
Arguments TypeError {E}.
Arguments External {E} e.

Inductive result (X A : Type) : Type :=
| Ok (a : A)
| Throw (x : X).
Arguments Ok {X A} a.
Arguments Throw {X A} x.

(** ** The state-and-exception monad of the adapter *)

Module JS.

Definition M (E A : Type) : Type := heap → result (thrown E) (A * heap).

Definition ret {E A} (a : A) : M E A := λ h, Ok (a, h).

Definition bind {E A B} (m : M E A) (k : A → M E B) : M E B :=
  λ h, match m h with
       | Ok (a, h') => k a h'
       | Throw x => Throw x
       end.

Definition throw {E A} (x : thrown E) : M E A := λ _, Throw x.

(** Reading the heap. *)
Definition gets {E A} (f : heap → A) : M E A := λ h, Ok (f h, h).

(** Allocation of a new object: the next free reference. *)
Definition alloc {E} (o : object) : M E loc := λ h, Ok (length h, h ++ [o]).

(** A call of a library function: its exceptions pass through as they are. *)
Definition extern {E A} (f : heap → result E (A * heap)) : M E A :=
  λ h, match f h with
       | Ok r => Ok r
       | Throw e => Throw (External e)
       end.

End JS.

Notation "'let!' x ':=' m 'in' k" := (JS.bind m (λ x, k))
  (at level 10, x name, m at level 100, k at level 200,
   format "'[v' 'let!'  x  ':='  m  'in' '/' k ']'").

(** ** The JavaScript operations the adapter uses *)

(** ToBoolean. *)
Definition truthy (v : value) : bool :=
  match v with
  | VUndefined | VNull | VNaN => false
  | VBool b => b
  | VNumber n | VBigInt n => negb (n =? 0)%Z
  | VString s => negb (String.eqb s EmptyString)
  | VSymbol _ | VRef _ => true
  end.

(** [typeof v]. *)
Definition typeof (h : heap) (v : value) : string :=
  match v with
  | VUndefined => "undefined"
  | VNull => "object"
  | VBool _ => "boolean"
  | VNumber _ | VNaN => "number"
  | VBigInt _ => "bigint"
  | VString _ => "string"
  | VSymbol _ => "symbol"
  | VRef l =>
      match h !! l with
      | Some (JSObject true _) => "function"
      | _ => "object"
      end
  end.

(** [r.attributes] where [r] is the library resource in the field
    [_resource] of a wrapper. *)
Definition resource_attributes (h : heap) (r : loc) : value :=
  match h !! r with
  | Some (NativeResource a) => a
  | _ => VUndefined
  end.

(** The value of [v.attributes] where the read does not throw: [undefined]
    on a primitive, which has no such property; the own property of an
    ordinary object, or [undefined] when it has none; the result of the
    getter on a [ResourceWrapper]. *)
Definition read_attributes (h : heap) (v : value) : value :=
  match v with
  | VRef l =>
      match h !! l with
      | Some (JSObject _ props) => default VUndefined (props !! "attributes")
      | Some (NativeResource a) => a
      | Some (ResourceWrapper r) => resource_attributes h r
      | None => VUndefined
      end
  | _ => VUndefined
  end.

(** [v.attributes]: a [TypeError] on [undefined] and [null]. *)
Definition get_attributes {E} (v : value) : JS.M E value :=
  match v with
  | VUndefined | VNull => JS.throw TypeError
  | _ => JS.gets (λ h, read_attributes h v)
  end.

(** The characters of a string as index properties: ["ab"] spreads to
    [{0: "a", 1: "b"}]. *)
Fixpoint index_props (i : nat) (s : string) : gmap string value :=
  match s with
  | EmptyString => ∅
  | String c s' => <[pretty i := VString (String c EmptyString)]> (index_props (S i) s')
  end.

(** The properties [...v] copies into an object literal: nothing for
    [undefined], [null], booleans, numbers and symbols; the own enumerable
    properties of an object.  Nothing is assumed enumerable on an opaque
    library resource. *)
Definition own_props (h : heap) (v : value) : gmap string value :=
  match v with
  | VString s => index_props 0 s
  | VRef l =>
      match h !! l with
      | Some (JSObject _ props) => props
      | Some (ResourceWrapper r) => {[ "_resource" := VRef r ]}
      | Some (NativeResource _) | None => ∅
      end
  | _ => ∅
  end.

(** The value of [this._resource]: the field of a wrapper; [undefined] on
    an object without that property. *)
Definition read_resource (h : heap) (this : loc) : value :=
  match h !! this with
  | Some (ResourceWrapper r) => VRef r
  | Some (JSObject _ props) => default VUndefined (props !! "_resource")
  | _ => VUndefined
  end.

(** [{...a, ...b}]: the properties of [a], then those of [b] written over
    them. *)
Definition spread (h : heap) (a b : value) : gmap string value :=
  own_props h b ∪ own_props h a.

(** [a && b], with [b] evaluated only when [a] is truthy. *)
Definition js_and {E} (a : value) (b : JS.M E value) : JS.M E value :=
  if truthy a then b else JS.ret a.

(** ** The adapter *)

Section Adapter.

(** What the library can throw. *)
Context {E : Type}.

(** The three functions imported from [@opentelemetry/resources].  Each
    runs on the heap and returns the reference of a resource, or throws. *)
Variable resourceFromAttributes : value → heap → result E (loc * heap).
Variable defaultResource : heap → result E (loc * heap).
Variable emptyResource : heap → result E (loc * heap).

(** *** class ResourceWrapper *)

(** [new ResourceWrapper(resource)]: the constructor stores its argument
    in [_resource]. *)
Definition new_ResourceWrapper (resource : loc) : JS.M E value :=
  let! this := JS.alloc (ResourceWrapper resource) in
  JS.ret (VRef this).

(** [this._resource]. *)
Definition field_resource (this : loc) : JS.M E value :=
  JS.gets (λ h, read_resource h this).

(** [get attributes()]. *)
Definition attributes (this : loc) : JS.M E value :=
  let! resource := field_resource this in
  get_attributes resource.

(** [getNativeResource()]. *)
Definition getNativeResource (this : loc) : JS.M E value :=
  field_resource this.

(** The call [other.getNativeResource()].  [ResourceWrapper] is the one
    implementation of [CompatResource] in the repository; on any other
    value there is no such method to call. *)
Definition call_getNativeResource (other : value) : JS.M E value :=
  match other with
  | VRef o =>
      λ h, match h !! o with
           | Some (ResourceWrapper _) => getNativeResource o h
           | _ => Throw TypeError
           end
  | _ => JS.throw TypeError
  end.

(** [merge(other)]. *)
Definition merge (this : loc) (other : value) : JS.M E value :=
  let! resource := field_resource this in
  let! mine := get_attributes resource in
  let! native := call_getNativeResource other in
  let! theirs := get_attributes native in
  let! props := JS.gets (λ h, spread h mine theirs) in
  let! mergedAttributes := JS.alloc (JSObject false props) in
  let! merged := JS.extern (resourceFromAttributes (VRef mergedAttributes)) in
  new_ResourceWrapper merged.

(** *** The factory functions *)

(** [createResource(attributes = {})]: the default value is taken when
    the argument is [undefined]. *)
Definition createResource (attributes : value) : JS.M E value :=
  let! attributes :=
    (match attributes with
     | VUndefined =>
         let! empty := JS.alloc (JSObject false ∅) in JS.ret (VRef empty)
     | _ => JS.ret attributes
     end) in
  let! resource := JS.extern (resourceFromAttributes attributes) in
  new_ResourceWrapper resource.

(** [getDefaultResource()]. *)
Definition getDefaultResource : JS.M E value :=
  let! resource := JS.extern defaultResource in
  new_ResourceWrapper resource.

(** [getEmptyResource()]. *)
Definition getEmptyResource : JS.M E value :=
  let! resource := JS.extern emptyResource in
  new_ResourceWrapper resource.

(** [createResourceFromDetector(detectorResult)]. *)
Definition createResourceFromDetector (detectorResult : value) : JS.M E value :=
  let! empty := JS.alloc (JSObject false ∅) in
  let! has_attributes :=
    js_and detectorResult (get_attributes detectorResult) in
  let! attributes :=
    (if truthy has_attributes then
       get_attributes detectorResult
     else
       let! is_object :=
         js_and detectorResult
           (JS.gets (λ h, VBool (String.eqb (typeof h detectorResult) "object"))) in
       if truthy is_object then JS.ret detectorResult
       else JS.ret (VRef empty)) in
  let! resource := JS.extern (resourceFromAttributes attributes) in
  new_ResourceWrapper resource.

(** *** The operations of the adapter, as data *)

Inductive call : Type :=
| CreateResource (attributes : value)
| GetDefaultResource
| GetEmptyResource
| CreateResourceFromDetector (detectorResult : value)
| Merge (this : loc) (other : value).

Definition run (c : call) : JS.M E value :=
  match c with
  | CreateResource a => createResource a
  | GetDefaultResource => getDefaultResource
  | GetEmptyResource => getEmptyResource
  | CreateResourceFromDetector d => createResourceFromDetector d
  | Merge this other => merge this other
  end.

(** The calls of library functions. *)
Definition library_call (f : heap → result E (loc * heap)) : Prop :=
  f = defaultResource ∨ f = emptyResource ∨ ∃ a, f = resourceFromAttributes a.

(** *** Observations *)

(** [v] is a reference to an object whose properties are [A]. *)
Definition is_mapping (h : heap) (v : value) (A : gmap string value) : Prop :=
  ∃ l c, v = VRef l ∧ h !! l = Some (JSObject c A).

(** [n] is a library resource whose attributes are the mapping [A]. *)
Definition native_with (h : heap) (n : loc) (A : gmap string value) : Prop :=
  ∃ a, h !! n = Some (NativeResource a) ∧ is_mapping h a A.

(** The property [attributes] of the wrapper [w] reads as the mapping [A]. *)
Definition exposes (h : heap) (w : loc) (A : gmap string value) : Prop :=
  ∃ a, attributes w h = Ok (a, h) ∧ is_mapping h a A.

(** The wrapper [w] and the handle it returns from [getNativeResource()]
    show the same attributes [A]: both reads succeed and give the same
    mapping. *)
Definition coherent (h : heap) (w : loc) (A : gmap string value) : Prop :=
  ∃ native a,
    getNativeResource w h = Ok (native, h) ∧
    get_attributes (E:=E) native h = Ok (a, h) ∧
    attributes w h = Ok (a, h) ∧
    is_mapping h a A.

(** [w] is a resource with attributes [A]: a wrapper over a library
    resource whose attributes are the mapping [A]. *)
Definition resource_with (h : heap) (w : loc) (A : gmap string value) : Prop :=
  ∃ r, h !! w = Some (ResourceWrapper r) ∧ native_with h r A.

(** The outcome [r] of an operation is a new wrapper that satisfies [P]
    in the heap the operation leaves, or what the library threw; it is
    never a [TypeError] of the adapter. *)
Definition returns (r : result (thrown E) (value * heap))
    (P : loc → heap → Prop) : Prop :=
  (∃ w h', r = Ok (VRef w, h') ∧ P w h') ∨ (∃ e, r = Throw (External e)).

(** [v] is an instance of [ResourceWrapper]. *)
Definition is_wrapper (h : heap) (v : value) : Prop :=
  ∃ l r, v = VRef l ∧ h !! l = Some (ResourceWrapper r).


(** The attributes a wrapper shows, computed: [None] when the read throws
    or gives something that is not a mapping. *)
Definition attributes_of (h : heap) (w : value) : option (gmap string value) :=
  match w with
  | VRef l =>
      match attributes l h with
      | Ok (VRef a, _) =>
          match h !! a with
          | Some (JSObject _ props) => Some props
          | _ => None
          end
      | _ => None
      end
  | _ => None
  end.

(** The attributes of the resource an operation returned. *)
Definition returned_attributes (r : result (thrown E) (value * heap))
  : option (gmap string value) :=
  match r with
  | Ok (w, h) => attributes_of h w
  | Throw _ => None
  end.

End Adapter.

(** ** The part of the heap an operation is given *)

(** A value within the references [L]: a reference is one of them. *)
Definition value_within (L : list loc) (v : value) : Prop :=
  match v with
  | VRef l => l ∈ L
  | _ => True
  end.

Definition object_within (L : list loc) (o : object) : Prop :=
  match o with
  | JSObject _ props => map_Forall (λ _ v, value_within L v) props
  | NativeResource a => value_within L a
  | ResourceWrapper r => r ∈ L
  end.

(** Two heaps hold the same objects at the references [L], and these
    objects refer to [L] only: [L] is what can be reached from the operands
    of a call.  At every other reference the heaps are unrelated. *)
Definition same_on (L : list loc) (h1 h2 : heap) : Prop :=
  ∀ l, l ∈ L → ∃ o, h1 !! l = Some o ∧ h2 !! l = Some o ∧ object_within L o.

(** The operands of a call are values within [L]. *)
Definition call_within (L : list loc) (c : call) : Prop :=
  match c with
  | CreateResource a => value_within L a
  | CreateResourceFromDetector d => value_within L d
  | Merge this other => this ∈ L ∧ value_within L other
  | GetDefaultResource | GetEmptyResource => True
  end.

(** The same argument for a library function in two heaps: the same
    primitive value, or references to equal objects. *)
Definition same_input (h1 : heap) (v1 : value) (h2 : heap) (v2 : value) : Prop :=
  match v1, v2 with
  | VRef l1, VRef l2 => ∃ o, h1 !! l1 = Some o ∧ h2 !! l2 = Some o
  | VRef _, _ | _, VRef _ => False
  | _, _ => v1 = v2
  end.

(** Two calls of the library that go the same way: both throw the same
    exception, or both return a resource with attributes [A]. *)
Definition alike {E} (f1 : heap → result E (loc * heap)) (k1 : heap)
    (f2 : heap → result E (loc * heap)) (k2 : heap)
    (A : gmap string value) : Prop :=
  (∀ n h, f1 k1 = Ok (n, h) → native_with h n A) ∧
  (∀ n h, f2 k2 = Ok (n, h) → native_with h n A) ∧
  (∀ e, f1 k1 = Throw e ↔ f2 k2 = Throw e).

(** ** The wording of the specification *)

(** "A1 overlaid with A2": the keys of either mapping, with the value of
    [A2] where both have the key. *)
Definition overlay (A1 A2 : gmap string value) : string → option value :=
  λ k, match A2 !! k with
       | Some v => Some v
       | None => A1 !! k
       end.

(** "The input exposes an [attributes] field": the property is there,
    whatever it holds. *)
Definition exposes_attributes_field (h : heap) (d : value) : option value :=
  match d with
  | VRef l =>
      match h !! l with
      | Some (JSObject _ props) => props !! "attributes"
      | Some (NativeResource a) => Some a
      | Some (ResourceWrapper r) => Some (resource_attributes h r)
      | None => None
      end
  | _ => None
  end.

(** "The input is itself a mapping-like object". *)
Definition mapping_like (h : heap) (d : value) : bool :=
  match d with
  | VRef l =>
      match h !! l with
      | Some (JSObject callable _) => negb callable
      | Some _ => true
      | None => false
      end
  | _ => false
  end.

(** The precedence of the specification for [createResourceFromDetector],
    as it is worded: (1) the [attributes] field when the input exposes one,
    (2) else the input when it is mapping-like, (3) else the empty mapping. *)
Definition detector_attributes_as_worded (h : heap) (d : value) : gmap string value :=
  match exposes_attributes_field h d with
  | Some field => own_props h field
  | None => if mapping_like h d then own_props h d else ∅
  end.

(** The precedence of the code: (1) the value of [attributes] when the input
    and that value are truthy, (2) else the input when it is truthy and
    [typeof] gives ["object"], (3) else the empty mapping. *)
Definition detector_attributes (h : heap) (d : value) : gmap string value :=
  if truthy d && truthy (read_attributes h d) then own_props h (read_attributes h d)
  else if truthy d && String.eqb (typeof h d) "object" then own_props h d
  else ∅.

(** ** A model of the library *)

(** A stand-in for [@opentelemetry/resources], to run the adapter on. *)
Module OTel.

(** Modelled from the spec: the construction function "attributes to
    resource" the adapter consumes from the telemetry library, which is not
    part of the repository.  The new resource holds a mapping of its own
    with the properties of the input. *)
Definition resourceFromAttributes (input : value) (h : heap)
  : result string (loc * heap) :=
  Ok (S (length h),
      h ++ [JSObject false (own_props h input); NativeResource (VRef (length h))]).

(** Modelled from the spec: the library function "() to empty resource". *)
Definition emptyResource (h : heap) : result string (loc * heap) :=
  Ok (S (length h), h ++ [JSObject false ∅; NativeResource (VRef (length h))]).

(** Modelled from the spec: the library function "() to default resource";
    the baseline attributes are the choice of the library, here the name of
    the service. *)
Definition defaultResource (h : heap) : result string (loc * heap) :=
  Ok (S (length h),
      h ++ [JSObject false {[ "service.name" := VString "unknown_service" ]};
            NativeResource (VRef (length h))]).

(** The adapter over this library. *)
Definition adapter : call → JS.M string value :=
  run resourceFromAttributes defaultResource emptyResource.

(** A library whose construction from attributes fails. *)
Definition refusing (input : value) (h : heap) : result string (loc * heap) :=
  Throw "invalid attributes".

Definition refusing_adapter : call → JS.M string value :=
  run refusing defaultResource emptyResource.

End OTel.

(** ** Sample heaps *)

Module Sample.

(** Two resources: [2] wraps the native resource [1] with the attributes
    of object [0], and [5] wraps [4] with the attributes of [3]. *)
Definition service : gmap string value :=
  {[ "service.name" := VString "checkout"; "cloud.region" := VString "eu" ]}.

Definition host : gmap string value :=
  {[ "cloud.region" := VString "us"; "host.name" := VString "h1" ]}.

Definition two_resources : heap :=
  [ JSObject false service; NativeResource (VRef 0); ResourceWrapper 1;
    JSObject false host; NativeResource (VRef 3); ResourceWrapper 4 ].

(** The detector results of the specification: [{attributes: {"a": 1}}]
    at [1], [{"b": 2}] at [2]; and a flat result with a key [attributes],
    [{attributes: 0, "host.name": "h1"}], at [3]. *)
Definition flat : gmap string value :=
  {[ "attributes" := VNumber 0; "host.name" := VString "h1" ]}.

Definition detected : heap :=
  [ JSObject false {[ "a" := VNumber 1 ]};
    JSObject false {[ "attributes" := VRef 0 ]};
    JSObject false {[ "b" := VNumber 2 ]};
    JSObject false flat ].

(** Another heap with the flat detector result at [3], and nothing else in
    common with [detected]. *)
Definition rearranged : heap :=
  [ JSObject true ∅; NativeResource VNull;
    JSObject false {[ "attributes" := VRef 0; "a" := VNumber 7 ]};
    JSObject false flat; ResourceWrapper 1 ].

(** Objects a run has nothing to do with. *)
Definition elsewhere : heap :=
  [ JSObject true ∅; JSObject false {[ "attributes" := VString "x" ]} ].

End Sample.

(** ** Properties *)

(** *** The heap only grows *)

Lemma lookup_alloc (h : heap) (o : object) : (h ++ [o]) !! length h = Some o.
Proof. by apply list_lookup_middle. Qed.

Lemma lookup_grow (h h' : heap) (l : loc) (o : object) :
  h `prefix_of` h' → h !! l = Some o → h' !! l = Some o.
Proof. intros Hp Hl. by eapply prefix_lookup_Some. Qed.

Lemma prefix_alloc (h : heap) (o : object) : h `prefix_of` h ++ [o].
Proof. by apply prefix_app_r. Qed.

Lemma is_mapping_grow (h h' : heap) v A :
  h `prefix_of` h' → is_mapping h v A → is_mapping h' v A.
Proof.
  intros Hp (l & c & -> & Hl). exists l, c. split; [done|]. by eapply lookup_grow.
Qed.

Lemma native_with_grow (h h' : heap) n A :
  h `prefix_of` h' → native_with h n A → native_with h' n A.
Proof.
  intros Hp (a & Hn & Ha). exists a. split; [by eapply lookup_grow|].
  by eapply is_mapping_grow.
Qed.

Lemma is_mapping_own_props (h : heap) v A : is_mapping h v A → own_props h v = A.
Proof. intros (l & c & -> & Hl). simpl. by rewrite Hl. Qed.

(** *** Reads of a wrapper *)

Section Reads.

Context {E : Type}.

(** A read of [attributes] that gave a reference gives it again in every
    larger heap. *)
Lemma get_attributes_grow (h h' : heap) (v : value) (l : loc) :
  h `prefix_of` h' →
  get_attributes (E:=E) v h = Ok (VRef l, h) →
  get_attributes (E:=E) v h' = Ok (VRef l, h').
Proof.
  intros Hp. destruct v; simpl; try done.
  unfold JS.gets. simpl. intros [= Hv]. f_equal. f_equal.
  destruct (h !! l0) as [o|] eqn:Hl; [|done].
  rewrite (lookup_grow _ _ _ _ Hp Hl). destruct o; try done.
  unfold resource_attributes in *.
  destruct (h !! _resource) as [o|] eqn:Hr; [|done].
  by rewrite (lookup_grow _ _ _ _ Hp Hr).
Qed.

Lemma field_resource_grow (h h' : heap) (w l : loc) :
  h `prefix_of` h' →
  field_resource (E:=E) w h = Ok (VRef l, h) →
  field_resource (E:=E) w h' = Ok (VRef l, h').
Proof.
  intros Hp. unfold field_resource, JS.gets, read_resource.
  intros [= Hv]. f_equal. f_equal.
  destruct (h !! w) as [o|] eqn:Hl; [|done].
  by rewrite (lookup_grow _ _ _ _ Hp Hl).
Qed.

Lemma attributes_wrapper (h : heap) (w r : loc) (a : value) :
  h !! w = Some (ResourceWrapper r) →
  h !! r = Some (NativeResource a) →
  attributes (E:=E) w h = Ok (a, h).
Proof.
  intros Hw Hr. unfold attributes, JS.bind, field_resource, JS.gets, read_resource.
  rewrite Hw. simpl. unfold JS.gets. by rewrite Hr.
Qed.

Lemma coherent_grow (h h' : heap) (w : loc) A :
  h `prefix_of` h' → coherent (E:=E) h w A → coherent (E:=E) h' w A.
Proof.
  intros Hp (native & a & Hn & Ha & Hw & Hm).
  destruct (Hm) as (l & c & -> & Hl).
  assert (∃ r, native = VRef r) as [r ->].
  { destruct native; simpl in Ha; try done; eauto. }
  exists (VRef r), (VRef l). unfold getNativeResource in *.
  pose proof (field_resource_grow _ _ _ _ Hp Hn) as Hn'.
  pose proof (get_attributes_grow _ _ _ _ Hp Ha) as Ha'.
  repeat split; try done.
  - unfold attributes, JS.bind. by rewrite Hn'.
  - by eapply is_mapping_grow.
Qed.

Lemma coherent_exposes (h : heap) (w : loc) A :
  coherent (E:=E) h w A → exposes (E:=E) h w A.
Proof. intros (native & a & _ & _ & Hw & Hm). by exists a. Qed.

Lemma exposes_grow (h h' : heap) (w : loc) A :
  h `prefix_of` h' → exposes (E:=E) h w A → exposes (E:=E) h' w A.
Proof.
  intros Hp (a & Hw & Hm). apply coherent_exposes, (coherent_grow h); [done|].
  unfold attributes, JS.bind in Hw.
  destruct (field_resource w h) as [[native h0]|] eqn:Hn; [|done].
  assert (h0 = h) as -> by (unfold field_resource, JS.gets, read_resource in Hn; congruence).
  exists native, a. repeat split; try done.
  unfold attributes, JS.bind. by rewrite Hn.
Qed.

(** A wrapper over a library resource whose attributes are a mapping. *)
Lemma wrapper_coherent (h : heap) (w r : loc) A :
  h !! w = Some (ResourceWrapper r) → native_with h r A → coherent (E:=E) h w A.
Proof.
  intros Hw (a & Hr & Hm). exists (VRef r), a.
  unfold getNativeResource, field_resource, JS.gets, read_resource. rewrite Hw.
  repeat split; try done.
  - simpl. unfold JS.gets. by rewrite Hr.
  - by eapply attributes_wrapper.
Qed.


Lemma exposes_attributes_of (h : heap) (w : loc) A :
  exposes (E:=E) h w A ↔ attributes_of (E:=E) h (VRef w) = Some A.
Proof.
  unfold exposes, attributes_of. split.
  - intros (a & -> & l & c & -> & Hl). by rewrite Hl.
  - destruct (attributes w h) as [[a h0]|] eqn:Hw; [|done].
    assert (h0 = h) as ->.
    { unfold attributes, JS.bind, field_resource, JS.gets in Hw.
      destruct (get_attributes _ h) as [[? ?]|] eqn:Hg; [|done].
      destruct (read_resource h w);
        simpl in Hg; unfold JS.gets, JS.ret, JS.throw in Hg; congruence. }
    destruct a; try done. destruct (h !! l) as [[c props| |]|] eqn:Hl; try done.
    intros [= ->]. exists (VRef l). split; [done|]. by exists l, c.
Qed.

End Reads.

(** *** The adapter over a library that keeps its contract *)

Section Properties.

Context {E : Type}.
Variable resourceFromAttributes : value → heap → result E (loc * heap).
Variable defaultResource : heap → result E (loc * heap).
Variable emptyResource : heap → result E (loc * heap).

(** What the adapter relies on.  A library function that returns gives a
    resource whose attributes are a mapping, and leaves every object of
    the heap as it was; [resourceFromAttributes] gives the resource the
    properties of its argument, [emptyResource] none. *)
Hypothesis resourceFromAttributes_spec : ∀ input h n h',
  resourceFromAttributes input h = Ok (n, h') →
  h `prefix_of` h' ∧ native_with h' n (own_props h input).
Hypothesis emptyResource_spec : ∀ h n h',
  emptyResource h = Ok (n, h') →
  h `prefix_of` h' ∧ native_with h' n ∅.
Hypothesis defaultResource_spec : ∀ h n h',
  defaultResource h = Ok (n, h') →
  h `prefix_of` h' ∧ ∃ A, native_with h' n A.

Local Abbreviation merge := (merge resourceFromAttributes).
Local Abbreviation createResource := (createResource resourceFromAttributes).
Local Abbreviation getDefaultResource := (getDefaultResource defaultResource).
Local Abbreviation getEmptyResource := (getEmptyResource emptyResource).
Local Abbreviation createResourceFromDetector :=
  (createResourceFromDetector resourceFromAttributes).
Local Abbreviation run := (run resourceFromAttributes defaultResource emptyResource).
Local Abbreviation exposes := (exposes (E:=E)).
Local Abbreviation coherent := (coherent (E:=E)).

(** Wrapping the result of a library call: the last two lines of each
    operation. *)
Local Abbreviation wrap f :=
  (let! resource := JS.extern f in new_ResourceWrapper resource).

Lemma wrap_eq (f : heap → result E (loc * heap)) h :
  wrap f h = match f h with
             | Ok (n, h1) => Ok (VRef (length h1), h1 ++ [ResourceWrapper n])
             | Throw e => Throw (External e)
             end.
Proof.
  unfold JS.bind, JS.extern. by destruct (f h) as [[n h1]|e].
Qed.

Lemma wrap_returns (f : heap → result E (loc * heap)) h v h' A :
  (∀ n h1, f h = Ok (n, h1) → h `prefix_of` h1 ∧ native_with h1 n A) →
  wrap f h = Ok (v, h') →
  ∃ w, v = VRef w ∧ resource_with h' w A ∧ h `prefix_of` h' ∧ h !! w = None.
Proof.
  intros Hf. rewrite wrap_eq. destruct (f h) as [[n h1]|e] eqn:Hfh; [|done].
  intros [= <- <-]. destruct (Hf _ _ eq_refl) as [Hp Hn].
  exists (length h1). repeat split.
  - exists n. split; [apply lookup_alloc|].
    eapply native_with_grow; [apply prefix_alloc|done].
  - etrans; [done|apply prefix_alloc].
  - apply lookup_ge_None. by apply prefix_length.
Qed.

Lemma resource_with_coherent h w A : resource_with h w A → coherent h w A.
Proof. intros (r & Hw & Hr). by eapply wrapper_coherent. Qed.

Lemma resource_with_exposes h w A : resource_with h w A → exposes h w A.
Proof. intros H. by apply coherent_exposes, resource_with_coherent. Qed.

Lemma resource_with_grow h h' w A :
  h `prefix_of` h' → resource_with h w A → resource_with h' w A.
Proof.
  intros Hp (r & Hw & Hr). exists r. split; [by eapply lookup_grow|].
  by eapply native_with_grow.
Qed.

(** [merge] on two resources: the new mapping, the library call, the new
    wrapper. *)
Lemma merge_eq h R1 R2 A1 A2 :
  resource_with h R1 A1 → resource_with h R2 A2 →
  merge R1 (VRef R2) h =
    wrap (resourceFromAttributes (VRef (length h)))
         (h ++ [JSObject false (A2 ∪ A1)]).
Proof.
  intros (r1 & Hw1 & a1 & Hr1 & Hm1) (r2 & Hw2 & a2 & Hr2 & Hm2).
  unfold merge, JS.bind, field_resource, JS.gets, read_resource. rewrite Hw1. simpl.
  unfold JS.gets. rewrite Hr1, Hw2.
  unfold getNativeResource, field_resource, JS.gets, read_resource. rewrite Hw2. simpl.
  unfold JS.gets, JS.alloc. rewrite Hr2. unfold spread.
  by rewrite (is_mapping_own_props _ _ _ Hm1), (is_mapping_own_props _ _ _ Hm2).
Qed.

Lemma lookup_overlay (A1 A2 : gmap string value) k :
  (A2 ∪ A1) !! k = overlay A1 A2 k.
Proof.
  unfold overlay. rewrite lookup_union.
  destruct (A2 !! k), (A1 !! k); done.
Qed.

Lemma createResource_eq h a :
  createResource a h =
    match a with
    | VUndefined =>
        wrap (resourceFromAttributes (VRef (length h))) (h ++ [JSObject false ∅])
    | _ => wrap (resourceFromAttributes a) h
    end.
Proof. by destruct a. Qed.

Lemma wrap_outcome (f : heap → result E (loc * heap)) h A :
  (∀ n h1, f h = Ok (n, h1) → h `prefix_of` h1 ∧ native_with h1 n A) →
  returns (wrap f h)
    (λ w h', resource_with h' w A ∧ h `prefix_of` h' ∧ h !! w = None).
Proof.
  intros Hf. destruct (wrap f h) as [[v h']|x] eqn:Hw.
  - left. destruct (wrap_returns _ _ _ _ _ Hf Hw) as (w & -> & ?). eauto.
  - right. rewrite wrap_eq in Hw. destruct (f h) as [[n h1]|e]; [done|].
    injection Hw as <-. eauto.
Qed.

Lemma returns_impl (r : result (thrown E) (value * heap)) (P Q : loc → heap → Prop) :
  (∀ w h', P w h' → Q w h') → returns r P → returns r Q.
Proof.
  intros HPQ [(w & h' & -> & HP)|(e & ->)]; [left|right]; eauto.
Qed.


Lemma merge_outcome (h : heap) (R1 R2 : loc) (A1 A2 : gmap string value) :
  resource_with h R1 A1 → resource_with h R2 A2 →
  returns (merge R1 (VRef R2) h)
    (λ w h', resource_with h' w (A2 ∪ A1) ∧ h `prefix_of` h' ∧ h !! w = None).
Proof.
  intros H1 H2. rewrite (merge_eq _ _ _ _ _ H1 H2).
  eapply returns_impl; [|apply (wrap_outcome _ _ (A2 ∪ A1))].
  - intros w h' (Hw & Hp & Hnew). repeat split; [done| |].
    + etrans; [apply prefix_alloc|done].
    + destruct (h !! w) eqn:Hl; [|done].
      apply (lookup_grow _ (h ++ [JSObject false (A2 ∪ A1)])) in Hl;
        [congruence|apply prefix_alloc].
  - intros n h1 Hf. apply resourceFromAttributes_spec in Hf as [Hp Hn].
    split; [done|]. simpl in Hn. by rewrite lookup_alloc in Hn.
Qed.

(** C1.  [R1.merge(R2)], for resources [R1] with attributes [A1] and [R2]
    with attributes [A2], returns a new resource whose attributes are [A1]
    overlaid with [A2]: at each key the value of [A2] when [A2] has the
    key, else the value of [A1].  (The other outcome is an exception of
    the library.) *)
Theorem merge_attributes_overlay (h : heap) (R1 R2 : loc)
    (A1 A2 : gmap string value) :
  resource_with h R1 A1 → resource_with h R2 A2 →
  returns (merge R1 (VRef R2) h)
    (λ w h', h !! w = None ∧
             ∃ A, exposes h' w A ∧ ∀ k, A !! k = overlay A1 A2 k).
Proof.
  intros H1 H2. eapply returns_impl; [|by apply merge_outcome].
  intros w h' (Hw & Hp & Hnew). split; [done|].
  exists (A2 ∪ A1). split; [by apply resource_with_exposes|].
  apply lookup_overlay.
Qed.

(** C4.  [createResource(A)] passes the mapping [A] to
    [resourceFromAttributes] and returns a resource whose attributes are
    [A].  [createResource()] passes a new empty mapping, the default of its
    parameter, and returns a resource whose attributes are the empty
    mapping.  (In both cases the call throws only what the library throws
    on that argument.) *)
Theorem createResource_attributes (h : heap) :
  (∀ a A, is_mapping h a A →
     createResource a h = wrap (resourceFromAttributes a) h ∧
     returns (createResource a h) (λ w h', exposes h' w A)) ∧
  createResource VUndefined h =
    wrap (resourceFromAttributes (VRef (length h))) (h ++ [JSObject false ∅]) ∧
  returns (createResource VUndefined h) (λ w h', exposes h' w ∅).
Proof.
  split; [|split].
  - intros a A Hm. rewrite createResource_eq.
    assert (returns (wrap (resourceFromAttributes a) h) (λ w h', exposes h' w A)) as Hr.
    { eapply returns_impl; [|apply (wrap_outcome _ _ A)].
      - intros w h' (Hw & _). by apply resource_with_exposes.
      - intros n h1 Hf. apply resourceFromAttributes_spec in Hf as [Hp Hn].
        by rewrite (is_mapping_own_props _ _ _ Hm) in Hn. }
    destruct Hm as (l & c & -> & Hl). done.
  - by rewrite createResource_eq.
  - rewrite createResource_eq.
    eapply returns_impl; [|apply (wrap_outcome _ _ ∅)].
    + intros w h' (Hw & _). by apply resource_with_exposes.
    + intros n h1 Hf. apply resourceFromAttributes_spec in Hf as [Hp Hn].
      split; [done|]. simpl in Hn. by rewrite lookup_alloc in Hn.
Qed.

(** C5.  [getEmptyResource()] returns a resource whose attributes are the
    empty mapping.  (The other outcome is an exception of the library.) *)
Theorem getEmptyResource_attributes (h : heap) :
  returns (getEmptyResource h) (λ w h', exposes h' w ∅).
Proof.
  eapply returns_impl; [|apply (wrap_outcome emptyResource h ∅)].
  - intros w h' (Hw & _). by apply resource_with_exposes.
  - intros n h1 Hf. by apply emptyResource_spec.
Qed.


(** C6.  [R1.merge(R2)] mutates neither operand: every object of the heap
    is as it was, [R1] and [R2] show the attributes they showed, and the
    resource returned is a new instance, distinct from both.  (The other
    outcome is an exception of the library.) *)
Theorem merge_leaves_operands (h : heap) (R1 R2 : loc)
    (A1 A2 : gmap string value) :
  resource_with h R1 A1 → resource_with h R2 A2 →
  returns (merge R1 (VRef R2) h)
    (λ w h', (∀ l o, h !! l = Some o → h' !! l = Some o) ∧
             exposes h' R1 A1 ∧ exposes h' R2 A2 ∧
             h !! w = None ∧ w ≠ R1 ∧ w ≠ R2).
Proof.
  intros H1 H2. eapply returns_impl; [|by apply merge_outcome].
  intros w h' (Hw & Hp & Hnew). repeat split.
  - intros l o Hl. by eapply lookup_grow.
  - by eapply resource_with_exposes, resource_with_grow.
  - by eapply resource_with_exposes, resource_with_grow.
  - done.
  - intros ->. destruct H1 as (r & Hr & _). congruence.
  - intros ->. destruct H2 as (r & Hr & _). congruence.
Qed.

Lemma getEmptyResource_outcome (h : heap) :
  returns (getEmptyResource h)
    (λ w h', resource_with h' w ∅ ∧ h `prefix_of` h' ∧ h !! w = None).
Proof.
  apply (wrap_outcome emptyResource h ∅).
  intros n h1 Hf. by apply emptyResource_spec.
Qed.

(** C9.  The empty resource is an identity of [merge] on attributes: for a
    resource [R] with attributes [A] and [e] returned by
    [getEmptyResource()], both [R.merge(e)] and [e.merge(R)] return a
    resource whose attributes are [A].  (The other outcome of each call is
    an exception of the library.) *)
Theorem merge_empty_identity (h : heap) (R : loc) (A : gmap string value) :
  resource_with h R A →
  returns (getEmptyResource h)
    (λ e h1, returns (merge R (VRef e) h1) (λ w h', exposes h' w A) ∧
             returns (merge e (VRef R) h1) (λ w h', exposes h' w A)).
Proof.
  intros HR. eapply returns_impl; [|apply getEmptyResource_outcome].
  intros e h1 (He & Hp & _).
  pose proof (resource_with_grow _ _ _ _ Hp HR) as HR1. split.
  - eapply returns_impl; [|by apply (merge_outcome h1 R e A ∅)].
    intros w h' (Hw & _). apply resource_with_exposes.
    by rewrite (left_id_L ∅ (∪)) in Hw.
  - eapply returns_impl; [|by apply (merge_outcome h1 e R ∅ A)].
    intros w h' (Hw & _). apply resource_with_exposes.
    by rewrite (right_id_L ∅ (∪)) in Hw.
Qed.


(** *** [createResourceFromDetector] *)

(** The mapping [{}] the function allocates first changes no read of the
    heap it was called on. *)
Lemma lookup_alloc_empty (h : heap) (l : loc) :
  (h ++ [JSObject false ∅]) !! l = h !! l ∨
  (h !! l = None ∧ (h ++ [JSObject false ∅]) !! l = Some (JSObject false ∅)).
Proof.
  destruct (h !! l) as [o|] eqn:Hl.
  - left. by apply lookup_app_l_Some.
  - apply lookup_ge_None in Hl. rewrite lookup_app_r by done.
    destruct (l - length h) as [|i]; [right|left]; done.
Qed.

Lemma resource_attributes_alloc_empty (h : heap) (r : loc) :
  resource_attributes (h ++ [JSObject false ∅]) r = resource_attributes h r.
Proof.
  unfold resource_attributes.
  by destruct (lookup_alloc_empty h r) as [->|[-> ->]].
Qed.

Lemma read_attributes_alloc_empty (h : heap) (v : value) :
  read_attributes (h ++ [JSObject false ∅]) v = read_attributes h v.
Proof.
  destruct v; try done. simpl.
  destruct (lookup_alloc_empty h l) as [->|[-> ->]]; [|done].
  destruct (h !! l) as [[]|]; try done. apply resource_attributes_alloc_empty.
Qed.

Lemma typeof_alloc_empty (h : heap) (v : value) :
  typeof (h ++ [JSObject false ∅]) v = typeof h v.
Proof.
  destruct v; try done. simpl.
  by destruct (lookup_alloc_empty h l) as [->|[-> ->]].
Qed.

Lemma own_props_alloc_empty (h : heap) (v : value) :
  own_props (h ++ [JSObject false ∅]) v = own_props h v.
Proof.
  destruct v; try done. simpl.
  by destruct (lookup_alloc_empty h l) as [->|[-> ->]].
Qed.

Lemma get_attributes_truthy (h : heap) (v : value) :
  truthy v = true → get_attributes (E:=E) v h = Ok (read_attributes h v, h).
Proof. by destruct v. Qed.

Lemma get_attributes_inv (v : value) (h : heap) (a : value) (h1 : heap) :
  get_attributes (E:=E) v h = Ok (a, h1) → h1 = h ∧ a = read_attributes h v.
Proof.
  destruct v; simpl; unfold JS.throw, JS.gets; intros; split; congruence.
Qed.

(** The call of the library [createResourceFromDetector] makes. *)
Lemma createResourceFromDetector_eq (d : value) (h : heap) :
  createResourceFromDetector d h =
    wrap (resourceFromAttributes
            (if truthy d && truthy (read_attributes h d) then read_attributes h d
             else if truthy d && String.eqb (typeof h d) "object" then d
             else VRef (length h)))
         (h ++ [JSObject false ∅]).
Proof.
  unfold createResourceFromDetector, js_and.
  rewrite <- (read_attributes_alloc_empty h d), <- (typeof_alloc_empty h d).
  unfold JS.bind at 1. unfold JS.alloc at 1.
  set (h0 := h ++ [JSObject false ∅]).
  destruct (truthy d) eqn:Hd; simpl.
  - unfold JS.bind at 1. rewrite (get_attributes_truthy _ _ Hd).
    destruct (truthy (read_attributes h0 d)) eqn:Hf.
    + unfold JS.bind at 1. unfold JS.bind at 2.
      by rewrite (get_attributes_truthy _ _ Hd).
    + unfold JS.bind, JS.gets, JS.ret. simpl.
      by destruct (String.eqb (typeof h0 d) "object").
  - unfold JS.bind, JS.ret. by rewrite Hd.
Qed.

Lemma createResourceFromDetector_outcome (d : value) (h : heap) :
  returns (createResourceFromDetector d h)
    (λ w h', resource_with h' w (detector_attributes h d) ∧
             h `prefix_of` h' ∧ h !! w = None).
Proof.
  rewrite createResourceFromDetector_eq.
  eapply returns_impl; [|apply (wrap_outcome _ _ (detector_attributes h d))].
  - intros w h' (Hw & Hp & Hnew). repeat split; [done| |].
    + etrans; [apply prefix_alloc|done].
    + destruct (h !! w) eqn:Hl; [|done].
      apply (lookup_grow _ (h ++ [JSObject false ∅])) in Hl;
        [congruence|apply prefix_alloc].
  - intros n h1 Hf. apply resourceFromAttributes_spec in Hf as [Hp Hn].
    split; [done|]. rewrite own_props_alloc_empty in Hn.
    unfold detector_attributes.
    destruct (truthy d && truthy (read_attributes h d)); [done|].
    destruct (truthy d && String.eqb (typeof h d) "object"); [done|].
    simpl in Hn. by rewrite lookup_ge_None_2 in Hn.
Qed.

(** C3, amended.  [createResourceFromDetector(d)] chooses what it passes to
    [resourceFromAttributes] by this precedence: (1) the value of
    [d.attributes] when [d] and that value are truthy; (2) else [d] itself
    when [d] is truthy and [typeof d] is ["object"]; (3) else a new empty
    mapping.  The resource it returns has the properties of what was chosen
    as attributes.  In particular [createResourceFromDetector(null)] passes
    a new empty mapping and gives a resource with empty attributes.  (The
    call throws only what the library throws on the chosen argument.) *)
Theorem createResourceFromDetector_precedence (d : value) (h : heap) :
  createResourceFromDetector d h =
    wrap (resourceFromAttributes
            (if truthy d && truthy (read_attributes h d)
             then read_attributes h d
             else if truthy d && String.eqb (typeof h d) "object"
             then d
             else VRef (length h)))
         (h ++ [JSObject false ∅]) ∧
  returns (createResourceFromDetector d h)
    (λ w h', exposes h' w
       (if truthy d && truthy (read_attributes h d)
        then own_props h (read_attributes h d)
        else if truthy d && String.eqb (typeof h d) "object"
        then own_props h d
        else ∅)) ∧
  createResourceFromDetector VNull h =
    wrap (resourceFromAttributes (VRef (length h))) (h ++ [JSObject false ∅]) ∧
  returns (createResourceFromDetector VNull h) (λ w h', exposes h' w ∅).
Proof.
  split; [|split; [|split]].
  - apply createResourceFromDetector_eq.
  - eapply returns_impl; [|apply createResourceFromDetector_outcome].
    intros w h' (Hw & _). by apply resource_with_exposes.
  - by rewrite createResourceFromDetector_eq.
  - eapply returns_impl; [|apply (createResourceFromDetector_outcome VNull)].
    intros w h' (Hw & _). by apply resource_with_exposes.
Qed.

(** C8.  For a detector result [d] that is an ordinary object whose
    [attributes] property holds a falsy value [f],
    [createResourceFromDetector(d)] passes [d] itself to the library, and
    the resource it returns shows the properties of [d], the key
    [attributes] among them: neither the properties of [f] nor the empty
    mapping.  (The other outcome is an exception of the library.) *)
Theorem createResourceFromDetector_falsy_attributes (h : heap) (l : loc)
    (props : gmap string value) (f : value) :
  h !! l = Some (JSObject false props) →
  props !! "attributes" = Some f →
  truthy f = false →
  createResourceFromDetector (VRef l) h =
    wrap (resourceFromAttributes (VRef l)) (h ++ [JSObject false ∅]) ∧
  returns (createResourceFromDetector (VRef l) h)
    (λ w h', exposes h' w props ∧ props ≠ own_props h f ∧ props ≠ ∅).
Proof.
  intros Hl Hf Hfalsy.
  assert (read_attributes h (VRef l) = f) as Hread by (simpl; by rewrite Hl, Hf).
  assert (typeof h (VRef l) = "object") as Htype by (simpl; by rewrite Hl).
  assert (own_props h f = ∅) as Hempty.
  { destruct f; try done. by destruct s. }
  assert (props ≠ ∅) as Hne.
  { intros ->. by rewrite lookup_empty in Hf. }
  split.
  - rewrite createResourceFromDetector_eq, Hread, Htype, Hfalsy. done.
  - eapply returns_impl; [|apply createResourceFromDetector_outcome].
    intros w h' (Hw & _). unfold detector_attributes in Hw.
    rewrite Hread, Htype, Hfalsy in Hw. simpl in Hw. rewrite Hl in Hw.
    split; [by apply resource_with_exposes|]. by rewrite Hempty.
Qed.


(** *** Every operation is one call of the library, then a wrapper *)

Local Abbreviation library_call :=
  (library_call resourceFromAttributes defaultResource emptyResource).

Lemma merge_shape (this : loc) (other : value) (h : heap) :
  merge this other h = Throw TypeError ∨
  ∃ o r, other = VRef o ∧ h !! o = Some (ResourceWrapper r) ∧
    merge this other h =
      wrap (resourceFromAttributes (VRef (length h)))
           (h ++ [JSObject false
                    (spread h (read_attributes h (read_resource h this))
                              (read_attributes h (VRef r)))]).
Proof.
  pose (resource := read_resource h this).
  assert (field_resource (E:=E) this h = Ok (resource, h)) as Hres by done.
  destruct (get_attributes (E:=E) resource h) as [[mine h1]|x] eqn:Hmine; cycle 1.
  { left. unfold merge, JS.bind. rewrite Hres, Hmine.
    destruct resource; simpl in Hmine; unfold JS.throw, JS.gets in Hmine;
      congruence. }
  apply get_attributes_inv in Hmine as Hinv. destruct Hinv as [-> ->].
  destruct (call_getNativeResource (E:=E) other h) as [[native h1]|x] eqn:Hnative;
    cycle 1.
  { left. unfold merge, JS.bind. rewrite Hres, Hmine, Hnative.
    destruct other; simpl in Hnative; unfold JS.throw in Hnative;
      try congruence.
    destruct (h !! l) as [[]|]; try congruence.
    unfold getNativeResource, field_resource, JS.gets in Hnative. congruence. }
  assert (h1 = h ∧ ∃ o r, other = VRef o ∧ h !! o = Some (ResourceWrapper r)
                          ∧ native = VRef r) as [-> (o & r & -> & Ho & ->)].
  { destruct other; simpl in Hnative; unfold JS.throw in Hnative; try done.
    destruct (h !! l) as [[]|] eqn:Hl; try done.
    unfold getNativeResource, field_resource, JS.gets, read_resource in Hnative.
    rewrite Hl in Hnative. injection Hnative as <- <-. eauto 10. }
  right. exists o, r. split; [done|]. split; [done|].
  unfold merge, JS.bind. rewrite Hres, Hmine, Hnative.
  by rewrite (get_attributes_truthy h (VRef r)).
Qed.

Lemma run_shape (c : call) (h : heap) :
  run c h = Throw TypeError ∨
  ∃ f h0, library_call f ∧ h `prefix_of` h0 ∧ run c h = wrap f h0.
Proof.
  destruct c as [a| | |d|this other]; simpl.
  - right. rewrite createResource_eq. destruct a;
      try (eexists _, h; split; [right; right; eauto|done]).
    eexists _, _. split; [right; right; eauto|]. split; [apply prefix_alloc|done].
  - right. exists defaultResource, h. split; [by left|done].
  - right. exists emptyResource, h. split; [right; by left|done].
  - right. rewrite createResourceFromDetector_eq. eexists _, _.
    split; [right; right; eauto|]. split; [apply prefix_alloc|done].
  - destruct (merge_shape this other h) as [?|(o & r & _ & _ & Hm)]; [by left|right].
    eexists _, _. split; [right; right; eauto|]. split; [apply prefix_alloc|done].
Qed.


Lemma library_call_returns f h n h' :
  library_call f → f h = Ok (n, h') →
  h `prefix_of` h' ∧ ∃ A, native_with h' n A.
Proof.
  intros [->|[->|[a ->]]] Hf.
  - by apply defaultResource_spec.
  - apply emptyResource_spec in Hf as [? ?]. eauto.
  - apply resourceFromAttributes_spec in Hf as [? ?]. eauto.
Qed.

Lemma run_returns (c : call) (h : heap) v h' :
  run c h = Ok (v, h') →
  ∃ w A, v = VRef w ∧ resource_with h' w A ∧ h `prefix_of` h' ∧ h !! w = None.
Proof.
  intros Hrun. destruct (run_shape c h) as [?|(f & h0 & Hf & Hp & Heq)];
    [congruence|].
  rewrite Heq, wrap_eq in Hrun.
  destruct (f h0) as [[n h1]|e] eqn:Hfh; [|done]. injection Hrun as <- <-.
  destruct (library_call_returns _ _ _ _ Hf Hfh) as [Hp1 [A Hn]].
  exists (length h1), A. repeat split.
  - exists n. split; [apply lookup_alloc|].
    eapply native_with_grow; [apply prefix_alloc|done].
  - etrans; [done|]. etrans; [done|apply prefix_alloc].
  - apply lookup_ge_None. etrans; by apply prefix_length.
Qed.

(** C2.  The resource any operation returns shows, through its property
    [attributes], the attributes of the handle [getNativeResource()]
    returns: both reads succeed and give the same mapping.  Each operation
    keeps this true of every resource of which it was true. *)
Theorem attributes_match_native (c : call) (h : heap) (v : value) (h' : heap) :
  run c h = Ok (v, h') →
  (∃ w A, v = VRef w ∧ coherent h' w A) ∧
  (∀ w0 A0, coherent h w0 A0 → coherent h' w0 A0).
Proof.
  intros (w & A & -> & Hw & Hp & _)%run_returns. split.
  - exists w, A. split; [done|]. by apply resource_with_coherent.
  - intros w0 A0. by apply coherent_grow.
Qed.



(** *** The rest of the heap is not read *)

Lemma own_props_new (h : heap) (c : bool) (props : gmap string value) :
  own_props (h ++ [JSObject c props]) (VRef (length h)) = props.
Proof. simpl. by rewrite lookup_alloc. Qed.

Lemma returns_Ok (v : value) (h' : heap) (P : loc → heap → Prop) :
  returns (E:=E) (Ok (v, h')) P → ∃ w, v = VRef w ∧ P w h'.
Proof. intros [(w & h1 & [= -> ->] & HP)|(e & [=])]. eauto. Qed.

(** [merge], whatever its operands. *)
Lemma merge_call (this : loc) (other : value) (h : heap) :
  merge this other h =
    match read_resource h this with
    | VUndefined | VNull => Throw TypeError
    | resource =>
        match other with
        | VRef o =>
            match h !! o with
            | Some (ResourceWrapper r) =>
                wrap (resourceFromAttributes (VRef (length h)))
                     (h ++ [JSObject false
                              (spread h (read_attributes h resource)
                                        (read_attributes h (VRef r)))])
            | _ => Throw TypeError
            end
        | _ => Throw TypeError
        end
    end.
Proof.
  assert (field_resource (E:=E) this h = Ok (read_resource h this, h)) as Hres
    by done.
  unfold merge. unfold JS.bind at 1. rewrite Hres.
  assert (∀ v, v ≠ VUndefined → v ≠ VNull →
            get_attributes (E:=E) v h = Ok (read_attributes h v, h)) as Hget
    by (by intros []).
  destruct (read_resource h this) as [| | | | | | | |l] eqn:Hr; try done.
  all: unfold JS.bind at 1; rewrite Hget by done.
  all: unfold JS.bind at 1.
  all: destruct other as [| | | | | | | |o]; try done; simpl.
  all: destruct (h !! o) as [[| |r]|] eqn:Ho; try done.
  all: unfold getNativeResource, field_resource, JS.gets, read_resource.
  all: rewrite Ho; unfold JS.bind at 1.
  all: by rewrite (Hget (VRef r)).
Qed.

Section SameOn.

Variable L : list loc.
Variables h1 h2 : heap.
Hypothesis Hsame : same_on L h1 h2.

Lemma same_lookup (l : loc) : l ∈ L → h2 !! l = h1 !! l.
Proof. intros (o & -> & -> & _)%Hsame. done. Qed.

Lemma within_lookup (l : loc) (o : object) :
  l ∈ L → h1 !! l = Some o → object_within L o.
Proof. intros (o' & Ho & _ & Hw)%Hsame Hl. congruence. Qed.

Lemma resource_attributes_same (r : loc) :
  r ∈ L →
  resource_attributes h2 r = resource_attributes h1 r ∧
  value_within L (resource_attributes h1 r).
Proof.
  intros Hr. unfold resource_attributes. rewrite same_lookup by done.
  split; [done|]. destruct (h1 !! r) as [[]|] eqn:Hl; try done.
  by apply (within_lookup _ _ Hr Hl).
Qed.

Lemma read_resource_same (this : loc) :
  this ∈ L →
  read_resource h2 this = read_resource h1 this ∧
  value_within L (read_resource h1 this).
Proof.
  intros Hr. unfold read_resource. rewrite same_lookup by done.
  split; [done|]. destruct (h1 !! this) as [[c props| |r]|] eqn:Hl; try done.
  - destruct (props !! "_resource") as [v|] eqn:Hv; [|done].
    by apply (within_lookup _ _ Hr Hl "_resource").
  - by apply (within_lookup _ _ Hr Hl).
Qed.

Lemma read_attributes_same (v : value) :
  value_within L v →
  read_attributes h2 v = read_attributes h1 v ∧
  value_within L (read_attributes h1 v).
Proof.
  intros Hv. destruct v; try done. simpl in *. rewrite same_lookup by done.
  destruct (h1 !! l) as [[c props|a|r]|] eqn:Hl; try done.
  - split; [done|]. destruct (props !! "attributes") as [v|] eqn:Hp; [|done].
    by apply (within_lookup _ _ Hv Hl "attributes").
  - split; [done|]. by apply (within_lookup _ _ Hv Hl).
  - apply resource_attributes_same. by apply (within_lookup _ _ Hv Hl).
Qed.

Lemma own_props_same (v : value) :
  value_within L v → own_props h2 v = own_props h1 v.
Proof. intros Hv. destruct v; try done. simpl in *. by rewrite same_lookup. Qed.

Lemma typeof_same (v : value) :
  value_within L v → typeof h2 v = typeof h1 v.
Proof. intros Hv. destruct v; try done. simpl in *. by rewrite same_lookup. Qed.

(** A value within [L] is the same argument in both heaps, whatever has
    been allocated since. *)
Lemma same_input_within (g1 g2 : heap) (v : value) :
  value_within L v → same_input (h1 ++ g1) v (h2 ++ g2) v.
Proof.
  intros Hv. destruct v; try done. simpl in *.
  destruct (Hsame _ Hv) as (o & Ho1 & Ho2 & _). exists o.
  split; by apply lookup_app_l_Some.
Qed.

End SameOn.

Lemma same_input_new (h1 h2 : heap) (o : object) :
  same_input (h1 ++ [o]) (VRef (length h1)) (h2 ++ [o]) (VRef (length h2)).
Proof. exists o. split; apply lookup_alloc. Qed.

Lemma same_input_sym (h1 h2 : heap) (v1 v2 : value) :
  same_input h1 v1 h2 v2 → same_input h2 v2 h1 v1.
Proof.
  destruct v1, v2; simpl; try done; try congruence.
  intros (o & ? & ?). by exists o.
Qed.

Lemma same_input_own_props (h1 h2 : heap) (v1 v2 : value) :
  same_input h1 v1 h2 v2 → own_props h1 v1 = own_props h2 v2.
Proof.
  destruct v1, v2; simpl; try done; try congruence.
  by intros (o & -> & ->).
Qed.

(** A library without state of its own: whether a function throws, and
    what, is fixed by its argument. *)
Hypothesis resourceFromAttributes_stateless : ∀ v1 h1 v2 h2 e,
  same_input h1 v1 h2 v2 →
  resourceFromAttributes v1 h1 = Throw e → resourceFromAttributes v2 h2 = Throw e.
Hypothesis emptyResource_stateless : ∀ h1 h2 e,
  emptyResource h1 = Throw e → emptyResource h2 = Throw e.

Lemma resourceFromAttributes_alike (k1 k2 : heap) (v1 v2 : value) :
  same_input k1 v1 k2 v2 →
  alike (resourceFromAttributes v1) k1 (resourceFromAttributes v2) k2
        (own_props k1 v1).
Proof.
  intros Hin. repeat split.
  - intros n h Hf. by apply resourceFromAttributes_spec in Hf as [_ ?].
  - intros n h Hf. rewrite (same_input_own_props _ _ _ _ Hin).
    by apply resourceFromAttributes_spec in Hf as [_ ?].
  - by apply resourceFromAttributes_stateless.
  - by apply resourceFromAttributes_stateless, same_input_sym.
Qed.

(** In heaps that are the same on what the operands reach, an operation
    makes the same call of the library, or throws the same [TypeError]. *)
Lemma run_alike (L : list loc) (h1 h2 : heap) (c : call) :
  same_on L h1 h2 → call_within L c → c ≠ GetDefaultResource →
  (run c h1 = Throw TypeError ∧ run c h2 = Throw TypeError) ∨
  ∃ f1 k1 f2 k2 A,
    run c h1 = wrap f1 k1 ∧ run c h2 = wrap f2 k2 ∧ alike f1 k1 f2 k2 A.
Proof.
  intros Hs Hin Hne. destruct c as [a| | |d|this other]; simpl in *.
  - right. rewrite !createResource_eq.
    assert (same_input h1 a h2 a) as Ha.
    { rewrite <- (app_nil_r h1), <- (app_nil_r h2).
      by apply (same_input_within L). }
    destruct a;
      try (eexists _, _, _, _, _; split; [done|]; split; [done|];
           by apply resourceFromAttributes_alike).
    eexists _, _, _, _, _. split; [done|]. split; [done|].
    apply resourceFromAttributes_alike, same_input_new.
  - done.
  - right. exists emptyResource, h1, emptyResource, h2, ∅.
    split; [done|]. split; [done|]. repeat split.
    + intros n h Hf. by apply emptyResource_spec in Hf as [_ ?].
    + intros n h Hf. by apply emptyResource_spec in Hf as [_ ?].
    + apply emptyResource_stateless.
    + apply emptyResource_stateless.
  - right. rewrite !createResourceFromDetector_eq.
    destruct (read_attributes_same L h1 h2 Hs d Hin) as [-> Hf].
    rewrite (typeof_same L h1 h2 Hs d Hin).
    eexists _, _, _, _, _. split; [done|]. split; [done|].
    apply resourceFromAttributes_alike.
    destruct (truthy d && truthy (read_attributes h1 d));
      [by apply (same_input_within L)|].
    destruct (truthy d && String.eqb (typeof h1 d) "object");
      [by apply (same_input_within L)|].
    apply same_input_new.
  - destruct Hin as [Hthis Hother]. rewrite !merge_call.
    destruct (read_resource_same L h1 h2 Hs this Hthis) as [-> Hres].
    destruct (read_attributes_same L h1 h2 Hs _ Hres) as [Hmine Hvm].
    destruct (read_resource h1 this) as [| | | | | | | |res] eqn:Hr;
      try (by left);
      (destruct other as [| | | | | | | |o]; try (by left);
       simpl in Hother; rewrite (same_lookup L h1 h2 Hs o Hother);
       destruct (h1 !! o) as [[| |r]|] eqn:Ho; try (by left);
       right;
       assert (value_within L (VRef r)) as Hr2
         by apply (within_lookup L h1 h2 Hs o _ Hother Ho);
       destruct (read_attributes_same L h1 h2 Hs _ Hr2) as [Htheirs Hvt];
       unfold spread; rewrite Hmine, Htheirs;
       rewrite !(own_props_same L h1 h2 Hs) by done;
       eexists _, _, _, _, _; split; [done|]; split; [done|];
       apply resourceFromAttributes_alike, same_input_new).
Qed.

(** C10.  Two runs of [createResource], [getEmptyResource],
    [createResourceFromDetector] or [merge] on the same operands, over the
    same library without state, in two heaps that hold the same objects
    where the operands reach and are unrelated everywhere else, end the
    same way: both throw the same exception, or both return resources with
    equal attributes. *)
Theorem operations_deterministic (L : list loc) (h1 h2 : heap) (c : call) :
  same_on L h1 h2 → call_within L c → c ≠ GetDefaultResource →
  (∀ x, run c h1 = Throw x ↔ run c h2 = Throw x) ∧
  (∀ v1 k1, run c h1 = Ok (v1, k1) →
     ∃ v2 k2 A, run c h2 = Ok (v2, k2) ∧
                attributes_of (E:=E) k1 v1 = Some A ∧
                attributes_of (E:=E) k2 v2 = Some A) ∧
  (∀ v1 k1 v2 k2, run c h1 = Ok (v1, k1) → run c h2 = Ok (v2, k2) →
     attributes_of (E:=E) k1 v1 = attributes_of (E:=E) k2 v2).
Proof.
  intros Hs Hin Hne.
  assert (∀ (f : heap → result E (loc * heap)) k n h A,
            f k = Ok (n, h) → native_with h n A →
            attributes_of (E:=E) (h ++ [ResourceWrapper n]) (VRef (length h))
            = Some A) as Hattr.
  { intros f k n h A _ Hn. apply exposes_attributes_of, resource_with_exposes.
    exists n. split; [apply lookup_alloc|].
    eapply native_with_grow; [apply prefix_alloc|done]. }
  destruct (run_alike L h1 h2 c Hs Hin Hne)
    as [[-> ->]|(f1 & k1 & f2 & k2 & A & -> & -> & HA1 & HA2 & Hthrow)].
  { repeat split; done. }
  rewrite !wrap_eq.
  destruct (f1 k1) as [[n1 g1]|e1] eqn:Hf1; destruct (f2 k2) as [[n2 g2]|e2] eqn:Hf2.
  - repeat split; try done.
    + intros v1 k [= <- <-]. eexists _, _, A. split; [done|].
      split; [exact (Hattr _ _ _ _ _ Hf1 (HA1 _ _ eq_refl))
             |exact (Hattr _ _ _ _ _ Hf2 (HA2 _ _ eq_refl))].
    + intros v1 k v2 k' [= <- <-] [= <- <-].
      rewrite (Hattr _ _ _ _ _ Hf1 (HA1 _ _ eq_refl)).
      by rewrite (Hattr _ _ _ _ _ Hf2 (HA2 _ _ eq_refl)).
  - discriminate (proj2 (Hthrow e2) eq_refl).
  - discriminate (proj1 (Hthrow e1) eq_refl).
  - assert (e2 = e1) as -> by (pose proof (proj1 (Hthrow e1) eq_refl); congruence).
    repeat split; done.
Qed.

(** *** Further properties of the operations *)

Lemma wrap_handle (f : heap → result E (loc * heap)) (h0 : heap)
    (v : value) (h' : heap) :
  wrap f h0 = Ok (v, h') →
  ∃ n h1,
    f h0 = Ok (n, h1) ∧
    v = VRef (length h1) ∧ h' = h1 ++ [ResourceWrapper n] ∧
    getNativeResource (E:=E) (length h1) h' = Ok (VRef n, h') ∧
    ∀ A, native_with h1 n A → exposes h' (length h1) A.
Proof.
  rewrite wrap_eq. destruct (f h0) as [[n h1]|e] eqn:Hfh; [|done].
  intros [= <- <-]. exists n, h1. repeat split.
  - unfold getNativeResource, field_resource, JS.gets, read_resource.
    by rewrite lookup_alloc.
  - intros A Hn. apply resource_with_exposes. exists n.
    split; [apply lookup_alloc|].
    eapply native_with_grow; [apply prefix_alloc|done].
Qed.

(** X1.  The wrapper an operation returns is the last object allocated and
    holds the very handle its library call returned: [getNativeResource()]
    gives that handle back, and the wrapper shows whatever mapping the
    handle has as attributes.  The call is [defaultResource()] for
    [getDefaultResource], [emptyResource()] for [getEmptyResource], and
    [resourceFromAttributes] for the others: on the argument of
    [createResource], or on a new empty mapping when there is none; on the
    value [createResourceFromDetector] chooses; on the new mapping [merge]
    builds from the attributes of its operands. *)
Theorem wrapper_holds_library_handle (c : call) (h : heap) (v : value) (h' : heap) :
  run c h = Ok (v, h') →
  ∃ n h1,
    match c with
    | CreateResource VUndefined =>
        resourceFromAttributes (VRef (length h)) (h ++ [JSObject false ∅])
        = Ok (n, h1)
    | CreateResource a => resourceFromAttributes a h = Ok (n, h1)
    | GetDefaultResource => defaultResource h = Ok (n, h1)
    | GetEmptyResource => emptyResource h = Ok (n, h1)
    | CreateResourceFromDetector d =>
        resourceFromAttributes
          (if truthy d && truthy (read_attributes h d) then read_attributes h d
           else if truthy d && String.eqb (typeof h d) "object" then d
           else VRef (length h))
          (h ++ [JSObject false ∅])
        = Ok (n, h1)
    | Merge this other =>
        ∃ o r, other = VRef o ∧ h !! o = Some (ResourceWrapper r) ∧
          resourceFromAttributes (VRef (length h))
            (h ++ [JSObject false
                     (spread h (read_attributes h (read_resource h this))
                               (read_attributes h (VRef r)))])
          = Ok (n, h1)
    end ∧
    v = VRef (length h1) ∧ h' = h1 ++ [ResourceWrapper n] ∧
    getNativeResource (E:=E) (length h1) h' = Ok (VRef n, h') ∧
    ∀ A, native_with h1 n A → exposes h' (length h1) A.
Proof.
  intros Hrun. destruct c as [a| | |d|this other]; simpl in Hrun.
  - rewrite createResource_eq in Hrun.
    destruct a; apply wrap_handle in Hrun as (res & h1 & Hf & Hrest);
      by exists res, h1.
  - apply wrap_handle in Hrun as (n & h1 & Hf & Hrest). by exists n, h1.
  - apply wrap_handle in Hrun as (n & h1 & Hf & Hrest). by exists n, h1.
  - rewrite createResourceFromDetector_eq in Hrun.
    apply wrap_handle in Hrun as (n & h1 & Hf & Hrest). by exists n, h1.
  - destruct (merge_shape this other h) as [?|(o & r & -> & Ho & Heq)];
      [congruence|].
    rewrite Heq in Hrun. apply wrap_handle in Hrun as (n & h1 & Hf & Hrest).
    exists n, h1. split; [|done]. by exists o, r.
Qed.

(** X2.  No operation changes an object that exists when it is called, its
    arguments included: every object of the heap is as it was, and the
    wrapper returned is at a reference that was not in use. *)
Theorem operations_only_allocate (c : call) (h : heap) (v : value) (h' : heap) :
  run c h = Ok (v, h') →
  (∀ l o, h !! l = Some o → h' !! l = Some o) ∧
  length h < length h' ∧
  ∃ w, v = VRef w ∧ h !! w = None ∧ is_wrapper h' v.
Proof.
  intros (w & A & -> & (r & Hw & _) & Hp & Hnew)%run_returns. repeat split.
  - intros l o Hl. by eapply lookup_grow.
  - apply lookup_lt_Some in Hw. apply lookup_ge_None in Hnew. lia.
  - exists w. repeat split; [done|]. by exists w, r.
Qed.

(** X3.  [merge] is associative on attributes: [R1.merge(R2).merge(R3)] and
    [R1.merge(R2.merge(R3))] show the same mapping, in which a key has the
    value of [A3] if [A3] has it, else that of [A2], else that of [A1]. *)
Theorem merge_associative (h : heap) (R1 R2 R3 : loc)
    (A1 A2 A3 : gmap string value) :
  resource_with h R1 A1 → resource_with h R2 A2 → resource_with h R3 A3 →
  ∃ A, (∀ k, A !! k = match A3 !! k with
                      | Some v => Some v
                      | None => overlay A1 A2 k
                      end) ∧
       returns (merge R1 (VRef R2) h)
         (λ w12 h1, returns (merge w12 (VRef R3) h1) (λ w h', exposes h' w A)) ∧
       returns (merge R2 (VRef R3) h)
         (λ w23 h1, returns (merge R1 (VRef w23) h1) (λ w h', exposes h' w A)).
Proof.
  intros H1 H2 H3. exists (A3 ∪ (A2 ∪ A1)). split; [|split].
  - intros k. rewrite lookup_union, lookup_overlay.
    by destruct (A3 !! k), (overlay A1 A2 k).
  - eapply returns_impl; [|by apply (merge_outcome h R1 R2 A1 A2)].
    intros w12 h1 (Hw & Hp & _).
    eapply returns_impl;
      [|apply (merge_outcome h1 w12 R3 (A2 ∪ A1) A3); [done|]].
    + intros w h' (Hw' & _). by apply resource_with_exposes.
    + by eapply resource_with_grow.
  - eapply returns_impl; [|by apply (merge_outcome h R2 R3 A2 A3)].
    intros w23 h1 (Hw & Hp & _).
    eapply returns_impl;
      [|apply (merge_outcome h1 R1 w23 A1 (A3 ∪ A2)); [|done]].
    + intros w h' (Hw' & _). apply resource_with_exposes.
      by rewrite (assoc_L (∪)).
    + by eapply resource_with_grow.
Qed.

(** X4.  Merging with a resource that already has all the attributes of the
    other, with the same values, changes nothing: when every attribute of
    [R1] is an attribute of [R2], both [R1.merge(R2)] and [R2.merge(R1)]
    show the attributes of [R2].  In particular [R.merge(R)] shows the
    attributes of [R]. *)
Theorem merge_absorbs (h : heap) (R1 R2 : loc) (A1 A2 : gmap string value) :
  resource_with h R1 A1 → resource_with h R2 A2 →
  (∀ k v, A1 !! k = Some v → A2 !! k = Some v) →
  returns (merge R1 (VRef R2) h) (λ w h', exposes h' w A2) ∧
  returns (merge R2 (VRef R1) h) (λ w h', exposes h' w A2).
Proof.
  intros H1 H2 Hsub.
  assert (A2 ∪ A1 = A2 ∧ A1 ∪ A2 = A2) as [Hl Hr].
  { apply map_subseteq_spec in Hsub. split.
    - apply map_eq. intros k. rewrite lookup_union.
      destruct (A2 !! k) as [v'|] eqn:Hk'; destruct (A1 !! k) as [v|] eqn:Hk;
        try done.
      eapply lookup_weaken in Hk; [|done]. congruence.
    - by apply map_subseteq_union. }
  split.
  - eapply returns_impl; [|by apply (merge_outcome h R1 R2 A1 A2)].
    intros w h' (Hw & _). apply resource_with_exposes. by rewrite Hl in Hw.
  - eapply returns_impl; [|by apply (merge_outcome h R2 R1 A2 A1)].
    intros w h' (Hw & _). apply resource_with_exposes. by rewrite Hr in Hw.
Qed.

Lemma exposes_unique (h : heap) (w : loc) (A B : gmap string value) :
  exposes h w A → exposes h w B → A = B.
Proof.
  intros (a & Ha & HA) (b & Hb & HB). rewrite Ha in Hb. injection Hb as <-.
  apply is_mapping_own_props in HA, HB. congruence.
Qed.

(** X5.  [merge] commutes on attributes exactly when it has no collision to
    settle.  If [R1] and [R2] give the same value to every key they share,
    [R1.merge(R2)] and [R2.merge(R1)] show the same mapping; and if the two
    calls return resources that show the same mapping, [R1] and [R2] give
    the same value to every key they share. *)
Theorem merge_commutes_without_conflict (h : heap) (R1 R2 : loc)
    (A1 A2 : gmap string value) :
  resource_with h R1 A1 → resource_with h R2 A2 →
  ((∀ k v1 v2, A1 !! k = Some v1 → A2 !! k = Some v2 → v1 = v2) →
   ∃ A, (∀ k, A !! k = overlay A1 A2 k) ∧ (∀ k, A !! k = overlay A2 A1 k) ∧
        returns (merge R1 (VRef R2) h) (λ w h', exposes h' w A) ∧
        returns (merge R2 (VRef R1) h) (λ w h', exposes h' w A)) ∧
  (∀ A w12 h12 w21 h21,
     merge R1 (VRef R2) h = Ok (VRef w12, h12) → exposes h12 w12 A →
     merge R2 (VRef R1) h = Ok (VRef w21, h21) → exposes h21 w21 A →
     ∀ k v1 v2, A1 !! k = Some v1 → A2 !! k = Some v2 → v1 = v2).
Proof.
  intros H1 H2. split.
  - intros Hagree.
    assert (A2 ∪ A1 = A1 ∪ A2) as Hcomm.
    { apply map_eq. intros k. rewrite !lookup_union.
      destruct (A1 !! k) as [v1|] eqn:Hk1; destruct (A2 !! k) as [v2|] eqn:Hk2;
        try done. by rewrite (Hagree _ _ _ Hk1 Hk2). }
    exists (A2 ∪ A1). split; [apply lookup_overlay|].
    split; [rewrite Hcomm; apply lookup_overlay|]. split.
    + eapply returns_impl; [|by apply (merge_outcome h R1 R2 A1 A2)].
      intros w h' (Hw & _). by apply resource_with_exposes.
    + eapply returns_impl; [|by apply (merge_outcome h R2 R1 A2 A1)].
      intros w h' (Hw & _). apply resource_with_exposes. by rewrite Hcomm.
  - intros A w12 h12 w21 h21 Hrun12 He12 Hrun21 He21 k v1 v2 Hk1 Hk2.
    pose proof (merge_outcome h R1 R2 A1 A2 H1 H2) as Ho12.
    pose proof (merge_outcome h R2 R1 A2 A1 H2 H1) as Ho21.
    rewrite Hrun12 in Ho12. rewrite Hrun21 in Ho21.
    apply returns_Ok in Ho12 as (? & [= <-] & Hw12%resource_with_exposes & _).
    apply returns_Ok in Ho21 as (? & [= <-] & Hw21%resource_with_exposes & _).
    pose proof (exposes_unique _ _ _ _ He12 Hw12) as ->.
    pose proof (exposes_unique _ _ _ _ He21 Hw21) as Heq.
    apply (f_equal (λ m : gmap string value, m !! k)) in Heq.
    rewrite (lookup_union_Some_l A2 A1 k v2 Hk2),
      (lookup_union_Some_l A1 A2 k v1 Hk1) in Heq. congruence.
Qed.

Lemma detector_attributes_resource (h : heap) (R : loc) (A : gmap string value) :
  resource_with h R A → detector_attributes h (VRef R) = A.
Proof.
  intros (n & HwR & a & Hn & l & c & -> & Hl).
  unfold detector_attributes. simpl. rewrite HwR. unfold resource_attributes.
  rewrite Hn. simpl. by rewrite Hl.
Qed.



(** X7.  For every input that is not an object ([undefined], [null], a
    boolean, a number, a string, a bigint, a symbol), and for a function
    whose property [attributes] is absent or falsy,
    [createResourceFromDetector] passes a new empty mapping to
    [resourceFromAttributes], not the input: it throws nothing of its own,
    the function's own properties are not taken, and the resource it
    returns has empty attributes.  (The call throws only what the library
    throws on the empty mapping.) *)
Theorem createResourceFromDetector_not_object (d : value) (h : heap) :
  (∀ l, d ≠ VRef l) ∨
  (∃ l props, d = VRef l ∧ h !! l = Some (JSObject true props) ∧
              truthy (default VUndefined (props !! "attributes")) = false) →
  createResourceFromDetector d h =
    wrap (resourceFromAttributes (VRef (length h))) (h ++ [JSObject false ∅]) ∧
  returns (createResourceFromDetector d h) (λ w h', exposes h' w ∅).
Proof.
  intros Hd.
  assert (truthy d && truthy (read_attributes h d) = false ∧
          truthy d && String.eqb (typeof h d) "object" = false) as [Hc1 Hc2].
  { destruct Hd as [Hprim|(l & props & -> & Hl & Hf)].
    - destruct d; simpl; try done; try (by rewrite andb_false_r).
      by destruct (Hprim l).
    - simpl. by rewrite Hl, Hf. }
  split.
  - by rewrite createResourceFromDetector_eq, Hc1, Hc2.
  - eapply returns_impl; [|apply createResourceFromDetector_outcome].
    intros w h' (Hw & _). unfold detector_attributes in Hw.
    rewrite Hc1, Hc2 in Hw. by apply resource_with_exposes.
Qed.

(** X8.  [merge] with an argument that is not an object ([undefined],
    [null], a boolean, a number, a string, a bigint, a symbol) throws a
    [TypeError], whatever the receiver and whatever the library would do:
    the call [other.getNativeResource()] fails before the library is
    reached. *)
Theorem merge_rejects_primitive (this : loc) (other : value) (h : heap) :
  (∀ l, other ≠ VRef l) → merge this other h = Throw TypeError.
Proof.
  intros Hother.
  destruct (merge_shape this other h) as [?|(o & r & -> & _)]; [done|].
  by destruct (Hother o).
Qed.


(** X9.  [createResourceFromDetector] is idempotent on attributes: applied
    to the resource it returned, for any input whatever, it returns a
    resource with the same attributes. *)
Theorem createResourceFromDetector_idempotent (d : value) (h : heap) :
  returns (createResourceFromDetector d h)
    (λ w h1, ∃ A, exposes h1 w A ∧
       returns (createResourceFromDetector (VRef w) h1)
         (λ w' h', exposes h' w' A ∧ w' ≠ w)).
Proof.
  eapply returns_impl; [|apply createResourceFromDetector_outcome].
  intros w h1 (Hw & _). exists (detector_attributes h d).
  split; [by apply resource_with_exposes|].
  eapply returns_impl; [|apply createResourceFromDetector_outcome].
  intros w' h' (Hw' & _ & Hnew).
  rewrite (detector_attributes_resource _ _ _ Hw) in Hw'.
  split; [by apply resource_with_exposes|].
  intros ->. destruct Hw as (r & Hr & _). congruence.
Qed.


End Properties.

(** *** The model of the library keeps the contract *)

Lemma lookup_snoc2_l (h : heap) (o1 o2 : object) :
  (h ++ [o1; o2]) !! length h = Some o1.
Proof. by apply list_lookup_middle. Qed.

Lemma lookup_snoc2_r (h : heap) (o1 o2 : object) :
  (h ++ [o1; o2]) !! S (length h) = Some o2.
Proof.
  rewrite lookup_app_r by lia.
  by replace (S (length h) - length h) with 1 by lia.
Qed.

Lemma otel_new_resource (h : heap) (A : gmap string value) :
  h `prefix_of` h ++ [JSObject false A; NativeResource (VRef (length h))] ∧
  native_with (h ++ [JSObject false A; NativeResource (VRef (length h))])
              (S (length h)) A.
Proof.
  split; [by apply prefix_app_r|].
  exists (VRef (length h)). split; [apply lookup_snoc2_r|].
  exists (length h), false. split; [done|apply lookup_snoc2_l].
Qed.

Lemma otel_resourceFromAttributes_spec input h n h' :
  OTel.resourceFromAttributes input h = Ok (n, h') →
  h `prefix_of` h' ∧ native_with h' n (own_props h input).
Proof. intros [= <- <-]. apply otel_new_resource. Qed.

Lemma otel_emptyResource_spec h n h' :
  OTel.emptyResource h = Ok (n, h') →
  h `prefix_of` h' ∧ native_with h' n ∅.
Proof. intros [= <- <-]. apply otel_new_resource. Qed.

Lemma otel_defaultResource_spec h n h' :
  OTel.defaultResource h = Ok (n, h') →
  h `prefix_of` h' ∧ ∃ A, native_with h' n A.
Proof.
  intros [= <- <-]. split; [apply otel_new_resource|].
  eexists. apply otel_new_resource.
Qed.

(** *** The examples of the specification, run *)

Example detector_with_attributes_field :
  returned_attributes
    (OTel.adapter (CreateResourceFromDetector (VRef 1)) Sample.detected)
  = Some {[ "a" := VNumber 1 ]}.
Proof. vm_compute. exact eq_refl. Qed.

Example detector_object_shaped :
  returned_attributes
    (OTel.adapter (CreateResourceFromDetector (VRef 2)) Sample.detected)
  = Some {[ "b" := VNumber 2 ]}.
Proof. vm_compute. exact eq_refl. Qed.

Example detector_null :
  returned_attributes
    (OTel.adapter (CreateResourceFromDetector VNull) Sample.detected)
  = Some ∅.
Proof. vm_compute. exact eq_refl. Qed.

Example detector_truthy_primitive :
  returned_attributes
    (OTel.adapter (CreateResourceFromDetector (VString "gcp")) Sample.detected)
  = Some ∅.
Proof. vm_compute. exact eq_refl. Qed.

Example merge_two_resources :
  returned_attributes
    (OTel.adapter (Merge 2 (VRef 5)) Sample.two_resources)
  = Some {[ "service.name" := VString "checkout";
            "cloud.region" := VString "us";
            "host.name" := VString "h1" ]}.
Proof. vm_compute. exact eq_refl. Qed.

Example merge_with_null_throws :
  OTel.adapter (Merge 2 VNull) Sample.two_resources = Throw TypeError.
Proof. reflexivity. Qed.

Example refused_construction_passes_through :
  OTel.refusing_adapter (CreateResource (VRef 0)) Sample.two_resources
  = Throw (External "invalid attributes").
Proof. reflexivity. Qed.

(** *** The theorems at the sample heaps *)

Lemma sample_resource_2 : resource_with Sample.two_resources 2 Sample.service.
Proof.
  exists 1. split; [reflexivity|]. exists (VRef 0). split; [reflexivity|].
  exists 0, false. split; reflexivity.
Qed.

Lemma sample_resource_5 : resource_with Sample.two_resources 5 Sample.host.
Proof.
  exists 4. split; [reflexivity|]. exists (VRef 3). split; [reflexivity|].
  exists 3, false. split; reflexivity.
Qed.

Lemma sample_same_on : same_on [3] Sample.detected Sample.rearranged.
Proof.
  intros l ->%list_elem_of_singleton. exists (JSObject false Sample.flat).
  split; [reflexivity|]. split; [reflexivity|].
  apply map_Forall_insert_2; [exact I|]. apply map_Forall_singleton. exact I.
Qed.

Lemma otel_resourceFromAttributes_stateless v1 h1 v2 h2 (e : string) :
  same_input h1 v1 h2 v2 →
  OTel.resourceFromAttributes v1 h1 = Throw e →
  OTel.resourceFromAttributes v2 h2 = Throw e.
Proof. intros _ [=]. Qed.

Lemma otel_emptyResource_stateless (h1 h2 : heap) (e : string) :
  OTel.emptyResource h1 = Throw e → OTel.emptyResource h2 = Throw e.
Proof. intros [=]. Qed.

Lemma otel_refusing_spec input h n h' :
  OTel.refusing input h = Ok (n, h') →
  h `prefix_of` h' ∧ native_with h' n (own_props h input).
Proof. intros [=]. Qed.

Lemma otel_refusing_stateless v1 h1 v2 h2 (e : string) :
  same_input h1 v1 h2 v2 →
  OTel.refusing v1 h1 = Throw e → OTel.refusing v2 h2 = Throw e.
Proof. by intros _ H. Qed.

(** C1 at the two sample resources. *)
Lemma merge_attributes_overlay_witness :
  resource_with Sample.two_resources 2 Sample.service ∧
  resource_with Sample.two_resources 5 Sample.host ∧
  returns (merge OTel.resourceFromAttributes 2 (VRef 5) Sample.two_resources)
    (λ w h', Sample.two_resources !! w = None ∧
             ∃ A, exposes (E:=string) h' w A ∧
                  ∀ k, A !! k = overlay Sample.service Sample.host k).
Proof.
  split; [exact sample_resource_2|]. split; [exact sample_resource_5|].
  exact (merge_attributes_overlay OTel.resourceFromAttributes
           otel_resourceFromAttributes_spec Sample.two_resources 2 5
           Sample.service Sample.host sample_resource_2 sample_resource_5).
Defined.

(** C4 at the mapping of the first sample resource. *)
Lemma createResource_attributes_witness :
  is_mapping Sample.two_resources (VRef 0) Sample.service ∧
  (createResource OTel.resourceFromAttributes (VRef 0) Sample.two_resources
   = (let! resource := JS.extern (OTel.resourceFromAttributes (VRef 0)) in
      new_ResourceWrapper resource) Sample.two_resources ∧
   returns (createResource OTel.resourceFromAttributes (VRef 0) Sample.two_resources)
     (λ w h', exposes (E:=string) h' w Sample.service)) ∧
  createResource OTel.resourceFromAttributes VUndefined Sample.two_resources
  = (let! resource := JS.extern (OTel.resourceFromAttributes
                                   (VRef (length Sample.two_resources))) in
     new_ResourceWrapper resource) (Sample.two_resources ++ [JSObject false ∅]) ∧
  returns (createResource OTel.resourceFromAttributes VUndefined Sample.two_resources)
    (λ w h', exposes (E:=string) h' w ∅).
Proof.
  assert (is_mapping Sample.two_resources (VRef 0) Sample.service) as Hm.
  { exists 0, false. split; reflexivity. }
  destruct (createResource_attributes OTel.resourceFromAttributes
              otel_resourceFromAttributes_spec Sample.two_resources) as [Ha Hd].
  split; [exact Hm|]. split; [exact (Ha _ _ Hm)|exact Hd].
Defined.

(** C5 over the model of the library. *)
Lemma getEmptyResource_attributes_witness :
  returns (getEmptyResource OTel.emptyResource Sample.two_resources)
    (λ w h', exposes (E:=string) h' w ∅).
Proof.
  exact (getEmptyResource_attributes OTel.emptyResource otel_emptyResource_spec
           Sample.two_resources).
Defined.

(** C6 at the two sample resources. *)
Lemma merge_leaves_operands_witness :
  resource_with Sample.two_resources 2 Sample.service ∧
  resource_with Sample.two_resources 5 Sample.host ∧
  returns (merge OTel.resourceFromAttributes 2 (VRef 5) Sample.two_resources)
    (λ w h', (∀ l o, Sample.two_resources !! l = Some o → h' !! l = Some o) ∧
             exposes (E:=string) h' 2 Sample.service ∧
             exposes (E:=string) h' 5 Sample.host ∧
             Sample.two_resources !! w = None ∧ w ≠ 2 ∧ w ≠ 5).
Proof.
  split; [exact sample_resource_2|]. split; [exact sample_resource_5|].
  exact (merge_leaves_operands OTel.resourceFromAttributes
           otel_resourceFromAttributes_spec Sample.two_resources 2 5
           Sample.service Sample.host sample_resource_2 sample_resource_5).
Defined.

(** C9 at the first sample resource. *)
Lemma merge_empty_identity_witness :
  resource_with Sample.two_resources 2 Sample.service ∧
  returns (getEmptyResource OTel.emptyResource Sample.two_resources)
    (λ e h1,
       returns (merge OTel.resourceFromAttributes 2 (VRef e) h1)
         (λ w h', exposes (E:=string) h' w Sample.service) ∧
       returns (merge OTel.resourceFromAttributes e (VRef 2) h1)
         (λ w h', exposes (E:=string) h' w Sample.service)).
Proof.
  split; [exact sample_resource_2|].
  exact (merge_empty_identity OTel.resourceFromAttributes OTel.emptyResource
           otel_resourceFromAttributes_spec otel_emptyResource_spec
           Sample.two_resources 2 Sample.service sample_resource_2).
Defined.

(** C3, amended, at the detector result [{attributes: {"a": 1}}]. *)
Lemma createResourceFromDetector_precedence_witness :
  createResourceFromDetector OTel.resourceFromAttributes (VRef 1) Sample.detected
  = (let! resource := JS.extern (OTel.resourceFromAttributes (VRef 0)) in
     new_ResourceWrapper resource) (Sample.detected ++ [JSObject false ∅]) ∧
  returns (createResourceFromDetector OTel.resourceFromAttributes (VRef 1)
             Sample.detected)
    (λ w h', exposes (E:=string) h' w {[ "a" := VNumber 1 ]}) ∧
  createResourceFromDetector OTel.resourceFromAttributes VNull Sample.detected
  = (let! resource := JS.extern (OTel.resourceFromAttributes
                                   (VRef (length Sample.detected))) in
     new_ResourceWrapper resource) (Sample.detected ++ [JSObject false ∅]) ∧
  returns (createResourceFromDetector OTel.resourceFromAttributes VNull
             Sample.detected)
    (λ w h', exposes (E:=string) h' w ∅).
Proof.
  exact (createResourceFromDetector_precedence OTel.resourceFromAttributes
           otel_resourceFromAttributes_spec (VRef 1) Sample.detected).
Defined.

(** C8 at the flat detector result, whose [attributes] is [0]. *)
Lemma createResourceFromDetector_falsy_attributes_witness :
  Sample.detected !! 3 = Some (JSObject false Sample.flat) ∧
  Sample.flat !! "attributes" = Some (VNumber 0) ∧
  truthy (VNumber 0) = false ∧
  returns (createResourceFromDetector OTel.resourceFromAttributes (VRef 3)
             Sample.detected)
    (λ w h', exposes (E:=string) h' w Sample.flat ∧
             Sample.flat ≠ own_props Sample.detected (VNumber 0) ∧
             Sample.flat ≠ ∅).
Proof.
  split; [reflexivity|]. split; [vm_compute; reflexivity|]. split; [reflexivity|].
  refine (proj2 (createResourceFromDetector_falsy_attributes
                   OTel.resourceFromAttributes otel_resourceFromAttributes_spec
                   Sample.detected 3 Sample.flat (VNumber 0) eq_refl _ eq_refl)).
  vm_compute; reflexivity.
Defined.

(** C2 at the merge of the two sample resources. *)
Lemma attributes_match_native_witness :
  ∃ v h', OTel.adapter (Merge 2 (VRef 5)) Sample.two_resources = Ok (v, h') ∧
          (∃ w A, v = VRef w ∧ coherent (E:=string) h' w A) ∧
          (∀ w0 A0, coherent (E:=string) Sample.two_resources w0 A0 →
                    coherent (E:=string) h' w0 A0).
Proof.
  eexists _, _. split; [reflexivity|].
  apply (attributes_match_native OTel.resourceFromAttributes
           OTel.defaultResource OTel.emptyResource
           otel_resourceFromAttributes_spec otel_emptyResource_spec
           otel_defaultResource_spec (Merge 2 (VRef 5)) Sample.two_resources).
  reflexivity.
Defined.


(** C10 at the flat detector result, in two heaps that have nothing else
    in common: over the model of the library both runs return a resource
    with the properties of the detector result, and over the library that
    refuses both throw its exception. *)
Lemma operations_deterministic_witness :
  same_on [3] Sample.detected Sample.rearranged ∧
  call_within [3] (CreateResourceFromDetector (VRef 3)) ∧
  CreateResourceFromDetector (VRef 3) ≠ GetDefaultResource ∧
  (∃ v1 k1 v2 k2,
     OTel.adapter (CreateResourceFromDetector (VRef 3)) Sample.detected
     = Ok (v1, k1) ∧
     OTel.adapter (CreateResourceFromDetector (VRef 3)) Sample.rearranged
     = Ok (v2, k2) ∧
     attributes_of (E:=string) k1 v1 = attributes_of (E:=string) k2 v2) ∧
  (∀ x, OTel.refusing_adapter (CreateResourceFromDetector (VRef 3)) Sample.detected
        = Throw x ↔
        OTel.refusing_adapter (CreateResourceFromDetector (VRef 3)) Sample.rearranged
        = Throw x).
Proof.
  assert (call_within [3] (CreateResourceFromDetector (VRef 3))) as Hin.
  { simpl. apply list_elem_of_singleton. reflexivity. }
  assert (CreateResourceFromDetector (VRef 3) ≠ GetDefaultResource) as Hne
    by discriminate.
  split; [exact sample_same_on|]. split; [exact Hin|]. split; [exact Hne|].
  split.
  - eexists _, _, _, _. split; [reflexivity|]. split; [reflexivity|].
    apply (proj2 (proj2
             (operations_deterministic OTel.resourceFromAttributes
                OTel.defaultResource OTel.emptyResource
                otel_resourceFromAttributes_spec otel_emptyResource_spec
                otel_resourceFromAttributes_stateless
                otel_emptyResource_stateless
                [3] Sample.detected Sample.rearranged
                (CreateResourceFromDetector (VRef 3))
                sample_same_on Hin Hne))); reflexivity.
  - exact (proj1
             (operations_deterministic OTel.refusing
                OTel.defaultResource OTel.emptyResource
                otel_refusing_spec otel_emptyResource_spec
                otel_refusing_stateless otel_emptyResource_stateless
                [3] Sample.detected Sample.rearranged
                (CreateResourceFromDetector (VRef 3))
                sample_same_on Hin Hne)).
Defined.

(** C3, as worded, fails.  The detector result
    [{attributes: 0, "host.name": "h1"}] exposes an [attributes] field; by
    the wording that field gives the attributes, which are then empty.  The
    code finds the field falsy and takes the object itself, so the resource
    shows both properties. *)
Lemma createResourceFromDetector_as_worded_fails :
  detector_attributes_as_worded Sample.detected (VRef 3) = ∅ ∧
  returned_attributes
    (OTel.adapter (CreateResourceFromDetector (VRef 3)) Sample.detected)
  = Some Sample.flat ∧
  ¬ returns
      (OTel.adapter (CreateResourceFromDetector (VRef 3)) Sample.detected)
      (λ w h', exposes (E:=string) h' w
                 (detector_attributes_as_worded Sample.detected (VRef 3))).
Proof.
  assert (detector_attributes_as_worded Sample.detected (VRef 3) = ∅) as Hworded
    by (vm_compute; exact eq_refl).
  assert (returned_attributes
            (OTel.adapter (CreateResourceFromDetector (VRef 3)) Sample.detected)
          = Some Sample.flat) as Hcode
    by (vm_compute; exact eq_refl).
  split; [exact Hworded|]. split; [exact Hcode|].
  intros [(w & h' & Hrun & Hw)|(e & Hrun)].
  - rewrite Hrun in Hcode.
    change (attributes_of (E:=string) h' (VRef w) = Some Sample.flat) in Hcode.
    apply exposes_attributes_of in Hw. rewrite Hworded, Hcode in Hw.
    assert (Sample.flat = ∅) as Hflat by congruence.
    apply (f_equal (λ A : gmap string value, A !! "attributes")) in Hflat.
    vm_compute in Hflat. discriminate Hflat.
  - rewrite Hrun in Hcode. discriminate Hcode.
Qed.

(** *** The further properties at the sample heaps *)

(** X1 at [getDefaultResource()]. *)
Lemma wrapper_holds_library_handle_witness :
  ∃ v h', OTel.adapter GetDefaultResource Sample.two_resources = Ok (v, h') ∧
    ∃ n h1,
      OTel.defaultResource Sample.two_resources = Ok (n, h1) ∧
      v = VRef (length h1) ∧ h' = h1 ++ [ResourceWrapper n] ∧
      getNativeResource (E:=string) (length h1) h' = Ok (VRef n, h') ∧
      ∀ A, native_with h1 n A → exposes (E:=string) h' (length h1) A.
Proof.
  eexists _, _. split; [reflexivity|].
  apply (wrapper_holds_library_handle OTel.resourceFromAttributes
           OTel.defaultResource OTel.emptyResource GetDefaultResource
           Sample.two_resources).
  reflexivity.
Defined.

(** X2 at [createResource] on the mapping of the first sample resource. *)
Lemma operations_only_allocate_witness :
  ∃ v h', OTel.adapter (CreateResource (VRef 0)) Sample.two_resources = Ok (v, h') ∧
    (∀ l o, Sample.two_resources !! l = Some o → h' !! l = Some o) ∧
    length Sample.two_resources < length h' ∧
    ∃ w, v = VRef w ∧ Sample.two_resources !! w = None ∧ is_wrapper h' v.
Proof.
  eexists _, _. split; [reflexivity|].
  apply (operations_only_allocate OTel.resourceFromAttributes
           OTel.defaultResource OTel.emptyResource
           otel_resourceFromAttributes_spec otel_emptyResource_spec
           otel_defaultResource_spec (CreateResource (VRef 0))
           Sample.two_resources).
  reflexivity.
Defined.

(** X3 at the two sample resources, the first taken twice. *)
Lemma merge_associative_witness :
  resource_with Sample.two_resources 2 Sample.service ∧
  resource_with Sample.two_resources 5 Sample.host ∧
  ∃ A, (∀ k, A !! k = match Sample.service !! k with
                      | Some v => Some v
                      | None => overlay Sample.service Sample.host k
                      end) ∧
       returns (merge OTel.resourceFromAttributes 2 (VRef 5) Sample.two_resources)
         (λ w12 h1, returns (merge OTel.resourceFromAttributes w12 (VRef 2) h1)
                      (λ w h', exposes (E:=string) h' w A)) ∧
       returns (merge OTel.resourceFromAttributes 5 (VRef 2) Sample.two_resources)
         (λ w23 h1, returns (merge OTel.resourceFromAttributes 2 (VRef w23) h1)
                      (λ w h', exposes (E:=string) h' w A)).
Proof.
  split; [exact sample_resource_2|]. split; [exact sample_resource_5|].
  exact (merge_associative OTel.resourceFromAttributes
           otel_resourceFromAttributes_spec Sample.two_resources 2 5 2
           Sample.service Sample.host Sample.service
           sample_resource_2 sample_resource_5 sample_resource_2).
Defined.

(** X4 at the first sample resource merged with itself. *)
Lemma merge_absorbs_witness :
  resource_with Sample.two_resources 2 Sample.service ∧
  (∀ k v, Sample.service !! k = Some v → Sample.service !! k = Some v) ∧
  returns (merge OTel.resourceFromAttributes 2 (VRef 2) Sample.two_resources)
    (λ w h', exposes (E:=string) h' w Sample.service).
Proof.
  split; [exact sample_resource_2|]. split; [exact (λ k v H, H)|].
  exact (proj1 (merge_absorbs OTel.resourceFromAttributes
                  otel_resourceFromAttributes_spec Sample.two_resources 2 2
                  Sample.service Sample.service
                  sample_resource_2 sample_resource_2 (λ k v H, H))).
Defined.

(** X5 at the first sample resource taken twice, where there is no
    conflict, and at the two sample resources, which disagree on
    ["cloud.region"]: there the two orders of [merge] do not show the same
    mapping. *)
Lemma merge_commutes_without_conflict_witness :
  resource_with Sample.two_resources 2 Sample.service ∧
  resource_with Sample.two_resources 5 Sample.host ∧
  (∃ A, (∀ k, A !! k = overlay Sample.service Sample.service k) ∧
        returns (merge OTel.resourceFromAttributes 2 (VRef 2) Sample.two_resources)
          (λ w h', exposes (E:=string) h' w A)) ∧
  ∀ A w12 h12 w21 h21,
    merge OTel.resourceFromAttributes 2 (VRef 5) Sample.two_resources
    = Ok (VRef w12, h12) →
    exposes (E:=string) h12 w12 A →
    merge OTel.resourceFromAttributes 5 (VRef 2) Sample.two_resources
    = Ok (VRef w21, h21) →
    exposes (E:=string) h21 w21 A →
    ∀ k v1 v2, Sample.service !! k = Some v1 → Sample.host !! k = Some v2 →
               v1 = v2.
Proof.
  split; [exact sample_resource_2|]. split; [exact sample_resource_5|]. split.
  - destruct (proj1 (merge_commutes_without_conflict OTel.resourceFromAttributes
                       otel_resourceFromAttributes_spec Sample.two_resources 2 2
                       Sample.service Sample.service
                       sample_resource_2 sample_resource_2)
                (λ k v1 v2 H1 H2,
                   f_equal (default v1) (eq_trans (eq_sym H1) H2)))
      as (A & HA & _ & Hrun & _).
    exists A. split; [exact HA|exact Hrun].
  - exact (proj2 (merge_commutes_without_conflict OTel.resourceFromAttributes
                    otel_resourceFromAttributes_spec Sample.two_resources 2 5
                    Sample.service Sample.host
                    sample_resource_2 sample_resource_5)).
Defined.


(** X7 at the string ["gcp"] and at the function of the sample heap. *)
Lemma createResourceFromDetector_not_object_witness :
  (∀ l, VString "gcp" ≠ VRef l) ∧
  (createResourceFromDetector OTel.resourceFromAttributes (VString "gcp")
     Sample.elsewhere
   = (let! resource := JS.extern (OTel.resourceFromAttributes
                                    (VRef (length Sample.elsewhere))) in
      new_ResourceWrapper resource) (Sample.elsewhere ++ [JSObject false ∅]) ∧
   returns (createResourceFromDetector OTel.resourceFromAttributes (VString "gcp")
              Sample.elsewhere)
     (λ w h', exposes (E:=string) h' w ∅)) ∧
  (createResourceFromDetector OTel.resourceFromAttributes (VRef 0)
     Sample.elsewhere
   = (let! resource := JS.extern (OTel.resourceFromAttributes
                                    (VRef (length Sample.elsewhere))) in
      new_ResourceWrapper resource) (Sample.elsewhere ++ [JSObject false ∅]) ∧
   returns (createResourceFromDetector OTel.resourceFromAttributes (VRef 0)
              Sample.elsewhere)
     (λ w h', exposes (E:=string) h' w ∅)).
Proof.
  assert (∀ l, VString "gcp" ≠ VRef l) as Hprim by (intros l; discriminate).
  split; [exact Hprim|]. split.
  - exact (createResourceFromDetector_not_object OTel.resourceFromAttributes
             otel_resourceFromAttributes_spec (VString "gcp") Sample.elsewhere
             (or_introl Hprim)).
  - apply (createResourceFromDetector_not_object OTel.resourceFromAttributes
             otel_resourceFromAttributes_spec (VRef 0) Sample.elsewhere).
    right. exists 0, ∅. repeat split; reflexivity.
Defined.

(** X8 at [merge(null)], over the library that refuses: the [TypeError]
    comes first. *)
Lemma merge_rejects_primitive_witness :
  (∀ l, VNull ≠ VRef l) ∧
  merge OTel.refusing 2 VNull Sample.two_resources = Throw TypeError.
Proof.
  assert (∀ l, VNull ≠ VRef l) as Hprim by (intros l; discriminate).
  split; [exact Hprim|].
  exact (merge_rejects_primitive OTel.refusing 2 VNull Sample.two_resources Hprim).
Defined.

(** X9 at the flat detector result. *)
Lemma createResourceFromDetector_idempotent_witness :
  returns (createResourceFromDetector OTel.resourceFromAttributes (VRef 3)
             Sample.detected)
    (λ w h1, ∃ A, exposes (E:=string) h1 w A ∧
       returns (createResourceFromDetector OTel.resourceFromAttributes (VRef w) h1)
         (λ w' h', exposes (E:=string) h' w' A ∧ w' ≠ w)).
Proof.
  exact (createResourceFromDetector_idempotent OTel.resourceFromAttributes
           otel_resourceFromAttributes_spec (VRef 3) Sample.detected).
Defined.
